(** * Discussion tools of the GitHub MCP server (pkg/github/discussions.go)

    A shallow embedding of the six discussion tool constructors
    (ListDiscussions, GetDiscussion, GetDiscussionCategories,
    GetDiscussionComments, AddDiscussionComment, CreateDiscussion): the
    declared input schema of each tool and the handler closure of each.

    The handlers are stateful only through what they do to the outside
    world: they obtain a client, call one method of it, read and close
    the response body.  These effects are recorded in a trace, so that
    "no network call" and "exactly one request" are statements about
    the list of events a handler run leaves behind. *)

From Stdlib Require Import ZArith Lia.
From stdpp Require Import base option list gmap strings fin_maps.

Local Open Scope string_scope.
Local Open Scope Z_scope.
Local Open Scope list_scope.

(** ** Go errors *)

(** The error values that reach the handlers.  [ErrMissingParam] and
    [ErrParamType] are the two kinds of parameter error, [ErrExternal] is
    an error produced outside the package (client construction, HTTP
    transport, io, encoding/json), and [ErrWrap] is what
    [fmt.Errorf("<prefix>%w", err)] builds. *)
Inductive error : Type :=
  | ErrMissingParam (p : string)
  | ErrParamType (p : string) (ty : string)
  | ErrExternal (msg : string)
  | ErrWrap (prefix : string) (inner : error).

(** [err.Error()] *)
Fixpoint Error (e : error) : string :=
  match e with
  | ErrMissingParam p => "missing required parameter: " +:+ p
  | ErrParamType p ty => "parameter " +:+ p +:+ " is not of type " +:+ ty
  | ErrExternal msg => msg
  | ErrWrap prefix inner => prefix +:+ Error inner
  end.

(** [fmt.Errorf(prefix ++ "%w", err)] *)
Definition Errorf (prefix : string) (err : error) : error := ErrWrap prefix err.

(** A parameter error is one of the two errors of parameter extraction. *)
Definition ParamError (e : error) : Prop :=
  match e with
  | ErrMissingParam _ | ErrParamType _ _ => True
  | _ => False
  end.

(** Results of fallible pure code: [(v, nil)] is [inr v], [(_, err)] is
    [inl err]. *)
Definition Res (A : Type) : Type := (error + A)%type.

#[global] Instance Res_ret : MRet Res := λ A a, inr a.
#[global] Instance Res_bind : MBind Res := λ A B f m,
  match m with
  | inl err => inl err
  | inr a => f a
  end.

(** ** Tool requests (mcp.CallToolRequest) *)

(** A decoded JSON value, as found in [request.Params.Arguments], a
    [map[string]interface{}].  A number carries the integer it stands
    for (a discussion number, a page number, a page size): the handlers
    only ever see the Go [int] that the parameter helpers make of it. *)
#[warnings="-register-all"]
Inductive value : Type :=
  | VNull
  | VBool (b : bool)
  | VNumber (n : Z)
  | VString (s : string)
  | VArray (items : list value)
  | VObject (fields : list (string * value)).

(** The JSON schema type name of a value. *)
Definition json_type (v : value) : string :=
  match v with
  | VNull => "null"
  | VBool _ => "boolean"
  | VNumber _ => "number"
  | VString _ => "string"
  | VArray _ => "array"
  | VObject _ => "object"
  end.

Record CallToolRequest : Type := mkRequest {
  Arguments : gmap string value
}.

(** ** Tool results (mcp.CallToolResult) *)

Record TextContent : Type := mkTextContent {
  Type_ : string;
  Text : string
}.

Record CallToolResult : Type := mkCallToolResult {
  Content : list TextContent;
  IsError : bool
}.

(** [mcp.NewToolResultText] *)
Definition NewToolResultText (text : string) : CallToolResult :=
  {| Content := [ {| Type_ := "text"; Text := text |} ]; IsError := false |}.

(** [mcp.NewToolResultError] *)
Definition NewToolResultError (text : string) : CallToolResult :=
  {| Content := [ {| Type_ := "text"; Text := text |} ]; IsError := true |}.

(** What a handler returns: a pointer to a [mcp.CallToolResult] and an
    [error], both nilable. *)
Definition HandlerResult : Type := (option CallToolResult * option error)%type.

(** ** Tool declarations (mcp.Tool and its builder options) *)

Record PropertySchema : Type := mkProperty {
  ptype : string;
  pdescription : option string;
  penum : option (list string);
  prequired : bool
}.

Record ToolInputSchema : Type := mkInputSchema {
  SchemaType : string;
  Properties : gmap string PropertySchema;
  Required : list string
}.

Record Tool : Type := mkTool {
  Name : string;
  Description : string;
  InputSchema : ToolInputSchema
}.

Definition PropertyOption : Type := PropertySchema → PropertySchema.
Definition ToolOption : Type := Tool → Tool.

(** [mcp.Required()] *)
Definition Required_ : PropertyOption := λ s,
  {| ptype := ptype s; pdescription := pdescription s; penum := penum s;
     prequired := true |}.

(** [mcp.Description(desc)] *)
Definition Description_ (desc : string) : PropertyOption := λ s,
  {| ptype := ptype s; pdescription := Some desc; penum := penum s;
     prequired := prequired s |}.

(** [mcp.Enum(values...)] *)
Definition Enum (values : list string) : PropertyOption := λ s,
  {| ptype := ptype s; pdescription := pdescription s; penum := Some values;
     prequired := prequired s |}.

(** The common body of [mcp.WithString] and [mcp.WithNumber]: build the
    property schema, move a [required] mark from the property to the
    [Required] list of the input schema, store the property. *)
Definition withProperty (ty name : string) (opts : list PropertyOption) : ToolOption := λ t,
  let schema := foldl (λ s opt, opt s)
                  {| ptype := ty; pdescription := None; penum := None;
                     prequired := false |} opts in
  let required :=
    if prequired schema then Required (InputSchema t) ++ [name]
    else Required (InputSchema t) in
  let stored := {| ptype := ptype schema; pdescription := pdescription schema;
                   penum := penum schema; prequired := false |} in
  {| Name := Name t; Description := Description t;
     InputSchema := {| SchemaType := SchemaType (InputSchema t);
                       Properties := <[name := stored]> (Properties (InputSchema t));
                       Required := required |} |}.

(** [mcp.WithString] *)
Definition WithString (name : string) (opts : list PropertyOption) : ToolOption :=
  withProperty "string" name opts.

(** [mcp.WithNumber] *)
Definition WithNumber (name : string) (opts : list PropertyOption) : ToolOption :=
  withProperty "number" name opts.

(** [mcp.WithDescription] *)
Definition WithDescription (desc : string) : ToolOption := λ t,
  {| Name := Name t; Description := desc; InputSchema := InputSchema t |}.

(** [mcp.NewTool] *)
Definition NewTool (name : string) (opts : list ToolOption) : Tool :=
  foldl (λ t opt, opt t)
    {| Name := name; Description := EmptyString;
       InputSchema := {| SchemaType := "object"; Properties := ∅; Required := [] |} |}
    opts.

(** [translations.TranslationHelperFunc] *)
Definition TranslationHelperFunc : Type := string → string → string.

(** [translations.NullTranslationHelper] returns the default text. *)
Definition NullTranslationHelper : TranslationHelperFunc := λ _ default, default.

(** ** The upstream client (go-github) as the handlers see it *)

(** [github.ListOptions] *)
Record ListOptions : Type := mkListOptions {
  Page : Z;
  PerPage : Z
}.

(** [github.DiscussionListOptions]; [Pinned] is a [*bool]. *)
Record DiscussionListOptions : Type := mkDiscussionListOptions {
  Direction : string;
  CategoryID : string;
  Pinned : option bool;
  DiscussionListOptions_ListOptions : ListOptions
}.

(** [github.DiscussionCommentListOptions] *)
Record DiscussionCommentListOptions : Type := mkDiscussionCommentListOptions {
  DiscussionCommentListOptions_ListOptions : ListOptions
}.

(** [github.DiscussionComment], as a request payload: the handler sets
    [Body] and leaves every other field nil. *)
Record DiscussionComment : Type := mkDiscussionComment {
  DiscussionComment_Body : option string
}.

(** [github.DiscussionRequest] *)
Record DiscussionRequest : Type := mkDiscussionRequest {
  DiscussionRequest_Title : option string;
  DiscussionRequest_Body : option string;
  DiscussionRequest_CategoryID : option string
}.

(** [github.Ptr] *)
Definition Ptr {A : Type} (a : A) : option A := Some a.

(** One call of a method of [client.Discussions], with its arguments. *)
Inductive Call : Type :=
  | CallListDiscussions (owner repo : string) (opts : DiscussionListOptions)
  | CallGetDiscussion (owner repo : string) (number : Z)
  | CallListDiscussionCategories (owner repo : string) (opts : ListOptions)
  | CallListDiscussionComments (owner repo : string) (number : Z)
      (opts : DiscussionCommentListOptions)
  | CallCreateDiscussionComment (owner repo : string) (number : Z)
      (comment : DiscussionComment)
  | CallCreateDiscussion (owner repo : string) (req : DiscussionRequest).

(** [github.Response]: the status code, and what [io.ReadAll(resp.Body)]
    gives. *)
Record Response : Type := mkResponse {
  StatusCode : Z;
  Body : Res string
}.

Definition StatusOK : Z := 200.
Definition StatusCreated : Z := 201.

(** The objects the client decodes ([*github.Discussion],
    [[]*github.DiscussionCategory], ...) belong to the client library;
    the handlers only hand them to [json.Marshal]. *)
Class Json (Object : Type) : Type := {
  Marshal : Object → Res string;
  Unmarshal : string → option Object
}.

(** A client answers a call with [(object, resp, err)]: [inl err] when
    [err != nil], else the decoded object and the response. *)
Record Client (Object : Type) : Type := mkClient {
  roundTrip : Call → Res (Object * Response)
}.
Arguments roundTrip {Object} _ _.
Arguments mkClient {Object} _.

(** [GetClientFn], applied to the context. *)
Definition GetClientFn (Object : Type) : Type := Res (Client Object).

(** ** Effects of a handler run *)

Inductive Event : Type :=
  | EvGetClient
  | EvRequest (c : Call)
  | EvReadAll
  | EvClose.

Definition Trace : Type := list Event.

(** A Go function body: it threads the trace and either has returned
    (left) or goes on with a value (right). *)
Definition Go (A : Type) : Type := Trace → (HandlerResult + A) * Trace.

#[global] Instance Go_ret : MRet Go := λ A a tr, (inr a, tr).
#[global] Instance Go_bind : MBind Go := λ A B f m tr,
  match m tr with
  | (inl res, tr') => (inl res, tr')
  | (inr a, tr') => f a tr'
  end.

(** [return result, err] *)
Definition Return {A : Type} (result : option CallToolResult) (err : option error) : Go A :=
  λ tr, (inl (result, err), tr).

(** An effect: it is logged and its outcome handed on. *)
Definition perform {A : Type} (e : Event) (outcome : A) : Go A :=
  λ tr, (inr outcome, tr ++ [e]).

(** [defer]: the event happens when the rest of the body has returned. *)
Definition defer {A : Type} (e : Event) (rest : Go A) : Go A :=
  λ tr, let '(r, tr') := rest tr in (r, tr' ++ [e]).

(** A handler body ends in a [return] on every path. *)
Definition run (body : Go Empty_set) : HandlerResult * Trace :=
  match body [] with
  | (inl res, tr) => (res, tr)
  | (inr absurd, _) => match absurd with end
  end.

(** [client, err := getClient(ctx)] *)
Definition callGetClient {Object : Type} (getClient : GetClientFn Object) : Go (Res (Client Object)) :=
  perform EvGetClient getClient.

(** [obj, resp, err := client.Discussions.<Method>(ctx, ...)] *)
Definition Discussions {Object : Type} (client : Client Object) (c : Call) : Go (Res (Object * Response)) :=
  perform (EvRequest c) (roundTrip client c).

(** [io.ReadAll(resp.Body)] *)
Definition ReadAll (resp : Response) : Go (Res string) :=
  perform EvReadAll (Body resp).

(** [server.ToolHandlerFunc], the context left out. *)
Definition ToolHandlerFunc : Type := CallToolRequest → HandlerResult * Trace.

(** ** Parameter helpers of the package *)

(** [paginationParams] *)
Record PaginationParams : Type := mkPaginationParams {
  page : Z;
  perPage : Z
}.

(** The helpers the handlers call that are defined elsewhere in the
    package: [requiredParam[string]], [RequiredInt],
    [OptionalParam[string]], [OptionalPaginationParams] and the tool
    option [WithPagination]. *)
Class Helpers : Type := {
  requiredParam : CallToolRequest → string → Res string;
  RequiredInt : CallToolRequest → string → Res Z;
  OptionalParam : CallToolRequest → string → Res string;
  OptionalPaginationParams : CallToolRequest → Res PaginationParams;
  WithPagination : ToolOption
}.

(** ** The six tools *)

Inductive Operation : Type :=
  | list_discussions
  | get_discussion
  | get_discussion_categories
  | get_discussion_comments
  | add_discussion_comment
  | create_discussion.

#[global] Instance Operation_eq_dec : EqDecision Operation.
Proof. solve_decision. Defined.

Section Tools.
Context {hp : Helpers} {Object : Type} {js : Json Object}.

(** Every handler starts by extracting its parameters, and leaves at
    the first extraction that fails with the same statement,
    [return mcp.NewToolResultError(err.Error()), nil].  That prefix of
    each handler is the function [<Tool>_params] below, in the error
    monad; the handler proper maps its [inl err] to that return
    statement and otherwise goes on with the extracted variables. *)

(** *** list_discussions *)

Definition ListDiscussions_tool (t : TranslationHelperFunc) : Tool :=
  NewTool "list_discussions"
    [ WithDescription (t "TOOL_LIST_DISCUSSIONS_DESCRIPTION"
                         "List discussions in a GitHub repository with filtering options");
      WithString "owner" [Required_; Description_ "Repository owner"];
      WithString "repo" [Required_; Description_ "Repository name"];
      WithString "direction"
        [Description_ "Sort direction ('asc', 'desc')"; Enum ["asc"; "desc"]];
      WithString "category_id" [Description_ "Filter by category ID"];
      WithString "pinned"
        [Description_ "Filter by pinned status ('true', 'false')"; Enum ["true"; "false"]];
      WithPagination ].

Definition set_Direction (direction : string) (opts : DiscussionListOptions) :=
  {| Direction := direction; CategoryID := CategoryID opts; Pinned := Pinned opts;
     DiscussionListOptions_ListOptions := DiscussionListOptions_ListOptions opts |}.

Definition set_CategoryID (categoryID : string) (opts : DiscussionListOptions) :=
  {| Direction := Direction opts; CategoryID := categoryID; Pinned := Pinned opts;
     DiscussionListOptions_ListOptions := DiscussionListOptions_ListOptions opts |}.

Definition set_Pinned (pinned : option bool) (opts : DiscussionListOptions) :=
  {| Direction := Direction opts; CategoryID := CategoryID opts; Pinned := pinned;
     DiscussionListOptions_ListOptions := DiscussionListOptions_ListOptions opts |}.

Definition set_ListOptions (lo : ListOptions) (opts : DiscussionListOptions) :=
  {| Direction := Direction opts; CategoryID := CategoryID opts; Pinned := Pinned opts;
     DiscussionListOptions_ListOptions := lo |}.

(** [&github.DiscussionListOptions{}] *)
Definition zero_DiscussionListOptions : DiscussionListOptions :=
  {| Direction := EmptyString; CategoryID := EmptyString; Pinned := None;
     DiscussionListOptions_ListOptions := {| Page := 0; PerPage := 0 |} |}.

Definition ListDiscussions_params (request : CallToolRequest)
  : Res (string * string * DiscussionListOptions) :=
  owner ← requiredParam request "owner";
  repo ← requiredParam request "repo";
  let opts := zero_DiscussionListOptions in
  direction ← OptionalParam request "direction";
  let opts := if bool_decide (direction ≠ EmptyString) then set_Direction direction opts else opts in
  categoryID ← OptionalParam request "category_id";
  let opts := if bool_decide (categoryID ≠ EmptyString) then set_CategoryID categoryID opts else opts in
  pinnedStr ← OptionalParam request "pinned";
  let opts :=
    if bool_decide (pinnedStr = "true") then set_Pinned (Some true) opts
    else if bool_decide (pinnedStr = "false") then set_Pinned (Some false) opts
    else opts in
  pagination ← OptionalPaginationParams request;
  let opts := set_ListOptions {| Page := page pagination; PerPage := perPage pagination |} opts in
  mret (owner, repo, opts).

Definition ListDiscussions_handler (getClient : GetClientFn Object) : ToolHandlerFunc :=
  λ request, run (
    match ListDiscussions_params request with
    | inl err => Return (Some (NewToolResultError (Error err))) None
    | inr (owner, repo, opts) =>
      client ← callGetClient getClient;
      match client with
      | inl err => Return None (Some (Errorf "failed to get GitHub client: " err))
      | inr client =>
        answer ← Discussions client (CallListDiscussions owner repo opts);
        match answer with
        | inl err => Return None (Some (Errorf "failed to list discussions: " err))
        | inr (discussions, resp) =>
          defer EvClose (
            if bool_decide (StatusCode resp ≠ StatusOK) then
              body ← ReadAll resp;
              match body with
              | inl err => Return None (Some (Errorf "failed to read response body: " err))
              | inr body =>
                Return (Some (NewToolResultError ("failed to list discussions: " +:+ body))) None
              end
            else
              match Marshal discussions with
              | inl err => Return None (Some (Errorf "failed to marshal discussions: " err))
              | inr r => Return (Some (NewToolResultText r)) None
              end)
        end
      end
    end).

Definition ListDiscussions (getClient : GetClientFn Object) (t : TranslationHelperFunc)
  : Tool * ToolHandlerFunc :=
  (ListDiscussions_tool t, ListDiscussions_handler getClient).

(** *** get_discussion *)

Definition GetDiscussion_tool (t : TranslationHelperFunc) : Tool :=
  NewTool "get_discussion"
    [ WithDescription (t "TOOL_GET_DISCUSSION_DESCRIPTION"
                         "Get details of a specific discussion in a GitHub repository");
      WithString "owner" [Required_; Description_ "The owner of the repository"];
      WithString "repo" [Required_; Description_ "The name of the repository"];
      WithNumber "discussion_number" [Required_; Description_ "The number of the discussion"] ].

Definition GetDiscussion_params (request : CallToolRequest) : Res (string * string * Z) :=
  owner ← requiredParam request "owner";
  repo ← requiredParam request "repo";
  discussionNumber ← RequiredInt request "discussion_number";
  mret (owner, repo, discussionNumber).

Definition GetDiscussion_handler (getClient : GetClientFn Object) : ToolHandlerFunc :=
  λ request, run (
    match GetDiscussion_params request with
    | inl err => Return (Some (NewToolResultError (Error err))) None
    | inr (owner, repo, discussionNumber) =>
      client ← callGetClient getClient;
      match client with
      | inl err => Return None (Some (Errorf "failed to get GitHub client: " err))
      | inr client =>
        answer ← Discussions client (CallGetDiscussion owner repo discussionNumber);
        match answer with
        | inl err => Return None (Some (Errorf "failed to get discussion: " err))
        | inr (discussion, resp) =>
          defer EvClose (
            if bool_decide (StatusCode resp ≠ StatusOK) then
              body ← ReadAll resp;
              match body with
              | inl err => Return None (Some (Errorf "failed to read response body: " err))
              | inr body =>
                Return (Some (NewToolResultError ("failed to get discussion: " +:+ body))) None
              end
            else
              match Marshal discussion with
              | inl err => Return None (Some (Errorf "failed to marshal discussion: " err))
              | inr r => Return (Some (NewToolResultText r)) None
              end)
        end
      end
    end).

Definition GetDiscussion (getClient : GetClientFn Object) (t : TranslationHelperFunc)
  : Tool * ToolHandlerFunc :=
  (GetDiscussion_tool t, GetDiscussion_handler getClient).

(** *** get_discussion_categories *)

Definition GetDiscussionCategories_tool (t : TranslationHelperFunc) : Tool :=
  NewTool "get_discussion_categories"
    [ WithDescription (t "TOOL_GET_DISCUSSION_CATEGORIES_DESCRIPTION"
                         "Get discussion categories in a GitHub repository");
      WithString "owner" [Required_; Description_ "Repository owner"];
      WithString "repo" [Required_; Description_ "Repository name"];
      WithPagination ].

Definition GetDiscussionCategories_params (request : CallToolRequest)
  : Res (string * string * ListOptions) :=
  owner ← requiredParam request "owner";
  repo ← requiredParam request "repo";
  pagination ← OptionalPaginationParams request;
  let opts := {| Page := page pagination; PerPage := perPage pagination |} in
  mret (owner, repo, opts).

Definition GetDiscussionCategories_handler (getClient : GetClientFn Object) : ToolHandlerFunc :=
  λ request, run (
    match GetDiscussionCategories_params request with
    | inl err => Return (Some (NewToolResultError (Error err))) None
    | inr (owner, repo, opts) =>
      client ← callGetClient getClient;
      match client with
      | inl err => Return None (Some (Errorf "failed to get GitHub client: " err))
      | inr client =>
        answer ← Discussions client (CallListDiscussionCategories owner repo opts);
        match answer with
        | inl err => Return None (Some (Errorf "failed to get discussion categories: " err))
        | inr (categories, resp) =>
          defer EvClose (
            if bool_decide (StatusCode resp ≠ StatusOK) then
              body ← ReadAll resp;
              match body with
              | inl err => Return None (Some (Errorf "failed to read response body: " err))
              | inr body =>
                Return (Some (NewToolResultError
                                ("failed to get discussion categories: " +:+ body))) None
              end
            else
              match Marshal categories with
              | inl err => Return None (Some (Errorf "failed to marshal categories: " err))
              | inr r => Return (Some (NewToolResultText r)) None
              end)
        end
      end
    end).

Definition GetDiscussionCategories (getClient : GetClientFn Object) (t : TranslationHelperFunc)
  : Tool * ToolHandlerFunc :=
  (GetDiscussionCategories_tool t, GetDiscussionCategories_handler getClient).

(** *** get_discussion_comments *)

Definition GetDiscussionComments_tool (t : TranslationHelperFunc) : Tool :=
  NewTool "get_discussion_comments"
    [ WithDescription (t "TOOL_GET_DISCUSSION_COMMENTS_DESCRIPTION"
                         "Get comments for a GitHub discussion");
      WithString "owner" [Required_; Description_ "Repository owner"];
      WithString "repo" [Required_; Description_ "Repository name"];
      WithNumber "discussion_number" [Required_; Description_ "Discussion number"];
      WithPagination ].

Definition GetDiscussionComments_params (request : CallToolRequest)
  : Res (string * string * Z * DiscussionCommentListOptions) :=
  owner ← requiredParam request "owner";
  repo ← requiredParam request "repo";
  discussionNumber ← RequiredInt request "discussion_number";
  pagination ← OptionalPaginationParams request;
  let opts :=
    {| DiscussionCommentListOptions_ListOptions :=
         {| Page := page pagination; PerPage := perPage pagination |} |} in
  mret (owner, repo, discussionNumber, opts).

Definition GetDiscussionComments_handler (getClient : GetClientFn Object) : ToolHandlerFunc :=
  λ request, run (
    match GetDiscussionComments_params request with
    | inl err => Return (Some (NewToolResultError (Error err))) None
    | inr (owner, repo, discussionNumber, opts) =>
      client ← callGetClient getClient;
      match client with
      | inl err => Return None (Some (Errorf "failed to get GitHub client: " err))
      | inr client =>
        answer ← Discussions client
                   (CallListDiscussionComments owner repo discussionNumber opts);
        match answer with
        | inl err => Return None (Some (Errorf "failed to get discussion comments: " err))
        | inr (comments, resp) =>
          defer EvClose (
            if bool_decide (StatusCode resp ≠ StatusOK) then
              body ← ReadAll resp;
              match body with
              | inl err => Return None (Some (Errorf "failed to read response body: " err))
              | inr body =>
                Return (Some (NewToolResultError
                                ("failed to get discussion comments: " +:+ body))) None
              end
            else
              match Marshal comments with
              | inl err => Return None (Some (Errorf "failed to marshal comments: " err))
              | inr r => Return (Some (NewToolResultText r)) None
              end)
        end
      end
    end).

Definition GetDiscussionComments (getClient : GetClientFn Object) (t : TranslationHelperFunc)
  : Tool * ToolHandlerFunc :=
  (GetDiscussionComments_tool t, GetDiscussionComments_handler getClient).

(** *** add_discussion_comment *)

Definition AddDiscussionComment_tool (t : TranslationHelperFunc) : Tool :=
  NewTool "add_discussion_comment"
    [ WithDescription (t "TOOL_ADD_DISCUSSION_COMMENT_DESCRIPTION"
                         "Add a comment to an existing discussion");
      WithString "owner" [Required_; Description_ "Repository owner"];
      WithString "repo" [Required_; Description_ "Repository name"];
      WithNumber "discussion_number"
        [Required_; Description_ "Discussion number to comment on"];
      WithString "body" [Required_; Description_ "Comment text"] ].

Definition AddDiscussionComment_params (request : CallToolRequest)
  : Res (string * string * Z * DiscussionComment) :=
  owner ← requiredParam request "owner";
  repo ← requiredParam request "repo";
  discussionNumber ← RequiredInt request "discussion_number";
  body ← requiredParam request "body";
  let comment := {| DiscussionComment_Body := Ptr body |} in
  mret (owner, repo, discussionNumber, comment).

Definition AddDiscussionComment_handler (getClient : GetClientFn Object) : ToolHandlerFunc :=
  λ request, run (
    match AddDiscussionComment_params request with
    | inl err => Return (Some (NewToolResultError (Error err))) None
    | inr (owner, repo, discussionNumber, comment) =>
      client ← callGetClient getClient;
      match client with
      | inl err => Return None (Some (Errorf "failed to get GitHub client: " err))
      | inr client =>
        answer ← Discussions client
                   (CallCreateDiscussionComment owner repo discussionNumber comment);
        match answer with
        | inl err => Return None (Some (Errorf "failed to create discussion comment: " err))
        | inr (createdComment, resp) =>
          defer EvClose (
            if bool_decide (StatusCode resp ≠ StatusCreated) then
              body ← ReadAll resp;
              match body with
              | inl err => Return None (Some (Errorf "failed to read response body: " err))
              | inr body =>
                Return (Some (NewToolResultError
                                ("failed to create discussion comment: " +:+ body))) None
              end
            else
              match Marshal createdComment with
              | inl err => Return None (Some (Errorf "failed to marshal response: " err))
              | inr r => Return (Some (NewToolResultText r)) None
              end)
        end
      end
    end).

Definition AddDiscussionComment (getClient : GetClientFn Object) (t : TranslationHelperFunc)
  : Tool * ToolHandlerFunc :=
  (AddDiscussionComment_tool t, AddDiscussionComment_handler getClient).

(** *** create_discussion *)

Definition CreateDiscussion_tool (t : TranslationHelperFunc) : Tool :=
  NewTool "create_discussion"
    [ WithDescription (t "TOOL_CREATE_DISCUSSION_DESCRIPTION"
                         "Create a new discussion in a GitHub repository");
      WithString "owner" [Required_; Description_ "Repository owner"];
      WithString "repo" [Required_; Description_ "Repository name"];
      WithString "title" [Required_; Description_ "Discussion title"];
      WithString "body" [Required_; Description_ "Discussion body content"];
      WithString "category_id" [Required_; Description_ "Category ID for the discussion"] ].

Definition CreateDiscussion_params (request : CallToolRequest)
  : Res (string * string * DiscussionRequest) :=
  owner ← requiredParam request "owner";
  repo ← requiredParam request "repo";
  title ← requiredParam request "title";
  body ← requiredParam request "body";
  categoryID ← requiredParam request "category_id";
  let discussionRequest :=
    {| DiscussionRequest_Title := Ptr title;
       DiscussionRequest_Body := Ptr body;
       DiscussionRequest_CategoryID := Ptr categoryID |} in
  mret (owner, repo, discussionRequest).

Definition CreateDiscussion_handler (getClient : GetClientFn Object) : ToolHandlerFunc :=
  λ request, run (
    match CreateDiscussion_params request with
    | inl err => Return (Some (NewToolResultError (Error err))) None
    | inr (owner, repo, discussionRequest) =>
      client ← callGetClient getClient;
      match client with
      | inl err => Return None (Some (Errorf "failed to get GitHub client: " err))
      | inr client =>
        answer ← Discussions client (CallCreateDiscussion owner repo discussionRequest);
        match answer with
        | inl err => Return None (Some (Errorf "failed to create discussion: " err))
        | inr (discussion, resp) =>
          defer EvClose (
            if bool_decide (StatusCode resp ≠ StatusCreated) then
              body ← ReadAll resp;
              match body with
              | inl err => Return None (Some (Errorf "failed to read response body: " err))
              | inr body =>
                Return (Some (NewToolResultError
                                ("failed to create discussion: " +:+ body))) None
              end
            else
              match Marshal discussion with
              | inl err => Return None (Some (Errorf "failed to marshal response: " err))
              | inr r => Return (Some (NewToolResultText r)) None
              end)
        end
      end
    end).

Definition CreateDiscussion (getClient : GetClientFn Object) (t : TranslationHelperFunc)
  : Tool * ToolHandlerFunc :=
  (CreateDiscussion_tool t, CreateDiscussion_handler getClient).

(** *** The tool surface as a whole *)

Definition constructor (op : Operation)
  : GetClientFn Object → TranslationHelperFunc → Tool * ToolHandlerFunc :=
  match op with
  | list_discussions => ListDiscussions
  | get_discussion => GetDiscussion
  | get_discussion_categories => GetDiscussionCategories
  | get_discussion_comments => GetDiscussionComments
  | add_discussion_comment => AddDiscussionComment
  | create_discussion => CreateDiscussion
  end.

Definition tool (op : Operation) (t : TranslationHelperFunc) : Tool :=
  match op with
  | list_discussions => ListDiscussions_tool t
  | get_discussion => GetDiscussion_tool t
  | get_discussion_categories => GetDiscussionCategories_tool t
  | get_discussion_comments => GetDiscussionComments_tool t
  | add_discussion_comment => AddDiscussionComment_tool t
  | create_discussion => CreateDiscussion_tool t
  end.

Definition handler (op : Operation) (getClient : GetClientFn Object) : ToolHandlerFunc :=
  snd (constructor op getClient NullTranslationHelper).

(** The upstream call a request leads to once every parameter
    extraction of the handler has succeeded. *)
Definition params (op : Operation) (request : CallToolRequest) : Res Call :=
  match op with
  | list_discussions =>
      '(owner, repo, opts) ← ListDiscussions_params request;
      mret (CallListDiscussions owner repo opts)
  | get_discussion =>
      '(owner, repo, number) ← GetDiscussion_params request;
      mret (CallGetDiscussion owner repo number)
  | get_discussion_categories =>
      '(owner, repo, opts) ← GetDiscussionCategories_params request;
      mret (CallListDiscussionCategories owner repo opts)
  | get_discussion_comments =>
      '(owner, repo, number, opts) ← GetDiscussionComments_params request;
      mret (CallListDiscussionComments owner repo number opts)
  | add_discussion_comment =>
      '(owner, repo, number, comment) ← AddDiscussionComment_params request;
      mret (CallCreateDiscussionComment owner repo number comment)
  | create_discussion =>
      '(owner, repo, req) ← CreateDiscussion_params request;
      mret (CallCreateDiscussion owner repo req)
  end.

(** The status each handler compares the response with. *)
Definition success_code (op : Operation) : Z :=
  match op with
  | list_discussions | get_discussion | get_discussion_categories
  | get_discussion_comments => StatusOK
  | add_discussion_comment | create_discussion => StatusCreated
  end.

(** The message each handler puts before an upstream error or body. *)
Definition failure_prefix (op : Operation) : string :=
  match op with
  | list_discussions => "failed to list discussions: "
  | get_discussion => "failed to get discussion: "
  | get_discussion_categories => "failed to get discussion categories: "
  | get_discussion_comments => "failed to get discussion comments: "
  | add_discussion_comment => "failed to create discussion comment: "
  | create_discussion => "failed to create discussion: "
  end.

(** The message each handler puts before a [json.Marshal] error. *)
Definition marshal_prefix (op : Operation) : string :=
  match op with
  | list_discussions => "failed to marshal discussions: "
  | get_discussion => "failed to marshal discussion: "
  | get_discussion_categories => "failed to marshal categories: "
  | get_discussion_comments => "failed to marshal comments: "
  | add_discussion_comment | create_discussion => "failed to marshal response: "
  end.

(** The requests a run has sent to the upstream service. *)
Definition requests (tr : Trace) : list Call :=
  omap (λ e, match e with EvRequest c => Some c | _ => None end) tr.

End Tools.

(** ** The paths of a handler run *)

Section Paths.
Context {Object : Type} {js : Json Object}.

(** What follows once the parameters are extracted: the outcome and
    the trace, path by path. *)
Definition upstream_phase (op : Operation) (getClient : GetClientFn Object) (c : Call)
  : HandlerResult * Trace :=
  match getClient with
  | inl err =>
      ((None, Some (Errorf "failed to get GitHub client: " err)), [EvGetClient])
  | inr client =>
      match roundTrip client c with
      | inl err =>
          ((None, Some (Errorf (failure_prefix op) err)), [EvGetClient; EvRequest c])
      | inr (obj, resp) =>
          if bool_decide (StatusCode resp ≠ success_code op) then
            match Body resp with
            | inl err =>
                ((None, Some (Errorf "failed to read response body: " err)),
                 [EvGetClient; EvRequest c; EvReadAll; EvClose])
            | inr body =>
                ((Some (NewToolResultError (failure_prefix op +:+ body)), None),
                 [EvGetClient; EvRequest c; EvReadAll; EvClose])
            end
          else
            match Marshal obj with
            | inl err =>
                ((None, Some (Errorf (marshal_prefix op) err)),
                 [EvGetClient; EvRequest c; EvClose])
            | inr r =>
                ((Some (NewToolResultText r), None),
                 [EvGetClient; EvRequest c; EvClose])
            end
      end
  end.

End Paths.

(** ** The parameter helpers, from the specification *)

Module ServerSpec.

(** Modelled from the spec: [requiredParam[string]], a helper of the
    package that is not among the sources.  "Every required parameter
    must be present and of the expected primitive type, else the
    operation reports a parameter error"; and, from the example of a
    comment whose body is the empty string, which "fails parameter
    validation before any request is sent" (the package's test
    expects the text "missing required parameter: body"), an empty
    string counts as missing. *)
Definition requiredParam (r : CallToolRequest) (p : string) : Res string :=
  match Arguments r !! p with
  | None => inl (ErrMissingParam p)
  | Some (VString s) =>
      if bool_decide (s = EmptyString) then inl (ErrMissingParam p) else inr s
  | Some _ => inl (ErrParamType p "string")
  end.

(** Modelled from the spec: [RequiredInt], a helper of the package that
    is not among the sources.  The parameter must be present and a
    number ("present and of the expected primitive type"); the number
    supplied is the one handed on. *)
Definition RequiredInt (r : CallToolRequest) (p : string) : Res Z :=
  match Arguments r !! p with
  | None => inl (ErrMissingParam p)
  | Some (VNumber n) => inr n
  | Some _ => inl (ErrParamType p "number")
  end.

(** Modelled from the spec: [OptionalParam[string]], a helper of the
    package that is not among the sources.  An optional parameter may
    be absent, which gives the zero value of the type; "mistyped
    input" is a parameter error. *)
Definition OptionalParam (r : CallToolRequest) (p : string) : Res string :=
  match Arguments r !! p with
  | None => inr EmptyString
  | Some (VString s) => inr s
  | Some _ => inl (ErrParamType p "string")
  end.

(** Modelled from the spec: the number behind an optional pagination
    parameter.  "Pagination parameters, when supplied, are forwarded
    unchanged"; the spec does not say which value stands for one that
    is not supplied, so that value is an argument. *)
Definition optionalNumber (r : CallToolRequest) (p : string) (default : Z) : Res Z :=
  match Arguments r !! p with
  | None => inr default
  | Some (VNumber n) => inr n
  | Some _ => inl (ErrParamType p "number")
  end.

(** Modelled from the spec: [OptionalPaginationParams], a helper of the
    package that is not among the sources: the optional numbers [page]
    and [perPage] of the request. *)
Definition OptionalPaginationParams (defaults : PaginationParams) (r : CallToolRequest)
  : Res PaginationParams :=
  page ← optionalNumber r "page" (page defaults);
  perPage ← optionalNumber r "perPage" (perPage defaults);
  mret {| page := page; perPage := perPage |}.

(** Modelled from the spec: [WithPagination], a tool option of the
    package that is not among the sources.  The tool-surface table
    lists [page] and [perPage] among the optional parameters of the
    tools that carry it. *)
Definition WithPagination : ToolOption := λ t,
  WithNumber "perPage" [] (WithNumber "page" [] t).

Definition helpers (defaults : PaginationParams) : Helpers :=
  Build_Helpers requiredParam RequiredInt OptionalParam
    (OptionalPaginationParams defaults) WithPagination.

End ServerSpec.

(** Modelled from the spec: the tool-surface table of section 6, the
    required and the optional parameters of each tool. *)
Definition tool_surface (op : Operation) : list string * list string :=
  match op with
  | list_discussions =>
      (["owner"; "repo"], ["direction"; "category_id"; "pinned"; "page"; "perPage"])
  | get_discussion => (["owner"; "repo"; "discussion_number"], [])
  | get_discussion_categories => (["owner"; "repo"], ["page"; "perPage"])
  | get_discussion_comments =>
      (["owner"; "repo"; "discussion_number"], ["page"; "perPage"])
  | add_discussion_comment => (["owner"; "repo"; "discussion_number"; "body"], [])
  | create_discussion => (["owner"; "repo"; "title"; "body"; "category_id"], [])
  end.

(** A parameter that is missing from the request or is not of the type
    the tool declares for it. *)
Definition unusable (request : CallToolRequest) (p ty : string) : Prop :=
  Arguments request !! p = None ∨
  ∃ v, Arguments request !! p = Some v ∧ json_type v ≠ ty.

(** The request without one of its arguments. *)
Definition without (p : string) (request : CallToolRequest) : CallToolRequest :=
  {| Arguments := delete p (Arguments request) |}.

(** The page options a call carries, if it is one of the paginated calls. *)
Definition call_ListOptions (c : Call) : option ListOptions :=
  match c with
  | CallListDiscussions _ _ opts => Some (DiscussionListOptions_ListOptions opts)
  | CallListDiscussionCategories _ _ opts => Some opts
  | CallListDiscussionComments _ _ _ opts =>
      Some (DiscussionCommentListOptions_ListOptions opts)
  | _ => None
  end.

(** The operations whose tool carries [WithPagination]. *)
Definition paginated (op : Operation) : bool :=
  match op with
  | list_discussions | get_discussion_categories | get_discussion_comments => true
  | _ => false
  end.

(** The repository a call addresses. *)
Definition call_owner (c : Call) : string :=
  match c with
  | CallListDiscussions owner _ _ | CallGetDiscussion owner _ _
  | CallListDiscussionCategories owner _ _ | CallListDiscussionComments owner _ _ _
  | CallCreateDiscussionComment owner _ _ _ | CallCreateDiscussion owner _ _ => owner
  end.

Definition call_repo (c : Call) : string :=
  match c with
  | CallListDiscussions _ repo _ | CallGetDiscussion _ repo _
  | CallListDiscussionCategories _ repo _ | CallListDiscussionComments _ repo _ _
  | CallCreateDiscussionComment _ repo _ _ | CallCreateDiscussion _ repo _ => repo
  end.

(** The discussion a call addresses, for the calls that address one. *)
Definition call_number (c : Call) : option Z :=
  match c with
  | CallGetDiscussion _ _ number | CallListDiscussionComments _ _ number _
  | CallCreateDiscussionComment _ _ number _ => Some number
  | _ => None
  end.

(** ** Fixtures *)

Module Fixtures.

(** Upstream objects as raw JSON text ([json.RawMessage]): marshalling
    gives the text back. *)
#[export] Instance RawMessage : Json string :=
  {| Marshal := λ o, inr o; Unmarshal := λ s, Some s |}.

Definition defaults : PaginationParams := {| page := 1; perPage := 30 |}.

#[export] Instance helpers : Helpers := ServerSpec.helpers defaults.

(** The arguments of the package's tests. *)
Definition get_request : CallToolRequest :=
  {| Arguments := list_to_map
       [("owner", VString "owner"); ("repo", VString "repo");
        ("discussion_number", VNumber 42)] |}.

Definition list_request : CallToolRequest :=
  {| Arguments := list_to_map
       [("owner", VString "owner"); ("repo", VString "repo");
        ("direction", VString "desc"); ("category_id", VString "1");
        ("pinned", VString "true"); ("page", VNumber 1); ("perPage", VNumber 30)] |}.

Definition empty_body_request : CallToolRequest :=
  {| Arguments := list_to_map
       [("owner", VString "owner"); ("repo", VString "repo");
        ("discussion_number", VNumber 42); ("body", VString EmptyString)] |}.

Definition no_owner_request : CallToolRequest :=
  {| Arguments := list_to_map [("repo", VString "repo")] |}.

Definition unusable_filters_request : CallToolRequest :=
  {| Arguments := list_to_map
       [("owner", VString "owner"); ("repo", VString "repo");
        ("direction", VString EmptyString); ("category_id", VString EmptyString);
        ("pinned", VString "yes")] |}.

Definition discussion : string := "[123,456]".

(** A client whose every call is answered with the given response. *)
Definition answering (resp : Response) : GetClientFn string :=
  inr (mkClient (λ _, inr (discussion, resp))).

(** A client whose every call fails in transport. *)
Definition unreachable : GetClientFn string :=
  inr (mkClient (λ _, inl (ErrExternal "dial tcp: connection refused"))).

(** No client at all. *)
Definition no_client : GetClientFn string :=
  inl (ErrExternal "no token").

Definition ok_response : Response :=
  {| StatusCode := 200; Body := inr discussion |}.

Definition not_found_response : Response :=
  {| StatusCode := 404; Body := inr "Not Found" |}.

(** A 404 whose body breaks off while it is read. *)
Definition broken_body_response : Response :=
  {| StatusCode := 404; Body := inl (ErrExternal "unexpected EOF") |}.

(** The request of the get_discussion test with an argument that the
    tool does not declare. *)
Definition noisy_get_request : CallToolRequest :=
  {| Arguments := <["verbose" := VBool true]> (Arguments get_request) |}.

Definition create_request : CallToolRequest :=
  {| Arguments := list_to_map
       [("owner", VString "owner"); ("repo", VString "repo");
        ("title", VString "Test Discussion");
        ("body", VString "This is a test discussion");
        ("category_id", VString "1")] |}.

(** The paginated requests of the package's tests, and one of
    list_discussions with a page and a size that are not the defaults. *)
Definition categories_page_request : CallToolRequest :=
  {| Arguments := list_to_map
       [("owner", VString "owner"); ("repo", VString "repo");
        ("page", VNumber 2); ("perPage", VNumber 10)] |}.

Definition comments_page_request : CallToolRequest :=
  {| Arguments := list_to_map
       [("owner", VString "owner"); ("repo", VString "repo");
        ("discussion_number", VNumber 42);
        ("page", VNumber 2); ("perPage", VNumber 10)] |}.

Definition list_page_request : CallToolRequest :=
  {| Arguments := list_to_map
       [("owner", VString "owner"); ("repo", VString "repo");
        ("direction", VString "asc"); ("page", VNumber 3); ("perPage", VNumber 50)] |}.

(** A 200 where a 201 is expected. *)
Definition ok_response_to_create : Response :=
  {| StatusCode := 200; Body := inr "OK" |}.

End Fixtures.

(** * Properties *)

(** ** What a handler run amounts to *)

(** Inversion of the binds of the error monad. *)
Section ResFacts.
Context {A B : Type}.

Lemma bind_inr (m : Res A) (f : A → Res B) (b : B) :
  m ≫= f = inr b → ∃ a, m = inr a ∧ f a = inr b.
Proof. destruct m as [err|a]; [done|]. intros H. by exists a. Qed.

Lemma bind_inl (m : Res A) (f : A → Res B) (err : error) :
  m ≫= f = inl err → m = inl err ∨ ∃ a, m = inr a ∧ f a = inl err.
Proof. destruct m as [err'|a]; [intros [= ->]; by left|]. intros H. right. by exists a. Qed.
End ResFacts.

Section HandlerFacts.
Context {hp : Helpers} {Object : Type} {js : Json Object}.

Ltac run_paths getClient :=
  unfold run, callGetClient, Discussions, ReadAll, defer, perform, Return,
    mbind, Go_bind;
  destruct getClient as [?|client]; cbn -[String.append]; [reflexivity|];
  match goal with
  | |- context [roundTrip client ?c] =>
      destruct (roundTrip client c) as [?|[obj resp]]; cbn -[String.append];
      [reflexivity|];
      destruct (bool_decide (StatusCode resp ≠ _)); cbn -[String.append];
      [destruct (Body resp)|destruct (Marshal obj)]; reflexivity
  end.

Lemma handler_run (op : Operation) (getClient : GetClientFn Object)
    (request : CallToolRequest) :
  handler op getClient request =
    match params op request with
    | inl err => ((Some (NewToolResultError (Error err)), None), [])
    | inr c => upstream_phase op getClient c
    end.
Proof.
  destruct op; unfold handler, params, upstream_phase; cbn -[String.append];
    [ unfold ListDiscussions_handler;
      destruct (ListDiscussions_params request) as [err|[[owner repo] opts]]
    | unfold GetDiscussion_handler;
      destruct (GetDiscussion_params request) as [err|[[owner repo] number]]
    | unfold GetDiscussionCategories_handler;
      destruct (GetDiscussionCategories_params request) as [err|[[owner repo] opts]]
    | unfold GetDiscussionComments_handler;
      destruct (GetDiscussionComments_params request) as [err|[[[owner repo] number] opts]]
    | unfold AddDiscussionComment_handler;
      destruct (AddDiscussionComment_params request) as [err|[[[owner repo] number] comment]]
    | unfold CreateDiscussion_handler;
      destruct (CreateDiscussion_params request) as [err|[[owner repo] req]] ];
    cbn -[String.append]; try reflexivity; run_paths getClient.
Qed.

(** The options list_discussions builds, field by field. *)
Lemma ListDiscussions_params_inr (request : CallToolRequest) (owner repo : string)
    (opts : DiscussionListOptions) :
  ListDiscussions_params request = inr (owner, repo, opts) →
  ∃ direction categoryID pinnedStr pagination,
    OptionalParam request "direction" = inr direction ∧
    OptionalParam request "category_id" = inr categoryID ∧
    OptionalParam request "pinned" = inr pinnedStr ∧
    OptionalPaginationParams request = inr pagination ∧
    Direction opts = direction ∧
    CategoryID opts = categoryID ∧
    Pinned opts =
      (if bool_decide (pinnedStr = "true") then Some true
       else if bool_decide (pinnedStr = "false") then Some false else None) ∧
    DiscussionListOptions_ListOptions opts =
      {| Page := page pagination; PerPage := perPage pagination |}.
Proof.
  unfold ListDiscussions_params. intros H.
  apply bind_inr in H as (owner' & _ & H). apply bind_inr in H as (repo' & _ & H).
  apply bind_inr in H as (direction & Hd & H).
  apply bind_inr in H as (categoryID & Hc & H).
  apply bind_inr in H as (pinnedStr & Hp & H).
  apply bind_inr in H as (pagination & Hpg & H).
  exists direction, categoryID, pinnedStr, pagination.
  unfold mret, Res_ret in H. injection H as <- <- <-.
  repeat split; try done; repeat case_bool_decide; cbn; try done;
    symmetry; by apply dec_stable.
Qed.

(** With a client at hand the upstream phase sends its call, once. *)
Lemma upstream_phase_requests (op : Operation) (client : Client Object) (c : Call) :
  requests (snd (upstream_phase op (inr client) c)) = [c].
Proof.
  unfold upstream_phase.
  destruct (roundTrip client c) as [err|[obj resp]]; [done|].
  by destruct (bool_decide _); [destruct (Body resp)|destruct (Marshal obj)].
Qed.

(** C9: whatever the request and whatever the upstream service does,
    a handler returns either a tool result and a nil error, or a nil
    result and an error; never both, never neither. *)
Theorem handler_result_exclusive (op : Operation) (getClient : GetClientFn Object)
    (request : CallToolRequest) :
  (∃ result, fst (handler op getClient request) = (Some result, None)) ∨
  (∃ err, fst (handler op getClient request) = (None, Some err)).
Proof.
  rewrite handler_run. destruct (params op request) as [err|c]; cbn; [eauto|].
  unfold upstream_phase.
  destruct getClient as [err|client]; cbn; [eauto|].
  destruct (roundTrip client c) as [err|[obj resp]]; cbn; [eauto|].
  destruct (bool_decide _);
    [destruct (Body resp)|destruct (Marshal obj)]; cbn; eauto.
Qed.

(** C4: when the call of the client method returns an error, the
    handler returns no tool result and that error wrapped behind the
    message of the operation. *)
Theorem transport_failure_is_hard_error (op : Operation) (getClient : GetClientFn Object)
    (request : CallToolRequest) (c : Call) (client : Client Object) (err : error) :
  params op request = inr c →
  getClient = inr client →
  roundTrip client c = inl err →
  fst (handler op getClient request) = (None, Some (Errorf (failure_prefix op) err)).
Proof.
  intros Hp Hg Hr. rewrite handler_run, Hp. unfold upstream_phase.
  by rewrite Hg, Hr.
Qed.

(** C2, as amended: when the call succeeds and the status is not the
    success code of the operation (200 for the four reads, 201 for
    add_discussion_comment and create_discussion), the handler reads
    the response body; if that read succeeds it returns a textual tool
    error, the message of the operation followed by the raw body, and
    if the read fails it returns the read error wrapped, with no tool
    result.  When the status is the success code no textual tool error
    is returned. *)
Theorem non_success_status_forwards_body (op : Operation) (getClient : GetClientFn Object)
    (request : CallToolRequest) (c : Call) (client : Client Object)
    (obj : Object) (resp : Response) :
  params op request = inr c →
  getClient = inr client →
  roundTrip client c = inr (obj, resp) →
  success_code op =
    (if bool_decide (op = add_discussion_comment ∨ op = create_discussion)
     then 201 else 200) ∧
  (StatusCode resp ≠ success_code op →
     match Body resp with
     | inr body =>
         fst (handler op getClient request) =
           (Some (NewToolResultError (failure_prefix op +:+ body)), None)
     | inl err =>
         fst (handler op getClient request) =
           (None, Some (Errorf "failed to read response body: " err))
     end) ∧
  (StatusCode resp = success_code op →
     ∀ text, fst (handler op getClient request) ≠ (Some (NewToolResultError text), None)).
Proof.
  intros Hp Hg Hr. rewrite handler_run, Hp. unfold upstream_phase.
  rewrite Hg, Hr. split; [by destruct op|]. split; intros Hs.
  - rewrite bool_decide_eq_true_2 by done. by destruct (Body resp).
  - rewrite bool_decide_eq_false_2 by (intros ?; done).
    intros text. by destruct (Marshal obj).
Qed.

(** C7, as amended: an invocation whose parameters are all extracted
    first obtains the client.  If that fails the handler sends no
    request.  Otherwise it sends exactly one request, the call built
    from the parameters, and nothing else happens but the reading (on
    a status other than the success code) and the closing of the body
    of the response to that request. *)
Theorem validated_run_single_request (op : Operation) (getClient : GetClientFn Object)
    (request : CallToolRequest) (c : Call) :
  params op request = inr c →
  match getClient with
  | inl _ => snd (handler op getClient request) = [EvGetClient]
  | inr _ =>
      requests (snd (handler op getClient request)) = [c] ∧
      (snd (handler op getClient request) = [EvGetClient; EvRequest c] ∨
       snd (handler op getClient request) = [EvGetClient; EvRequest c; EvClose] ∨
       snd (handler op getClient request) = [EvGetClient; EvRequest c; EvReadAll; EvClose])
  end.
Proof.
  intros Hp. rewrite handler_run, Hp.
  destruct getClient as [err|client]; [done|].
  split; [apply upstream_phase_requests|]. unfold upstream_phase.
  destruct (roundTrip client c) as [err|[obj resp]]; [by auto|].
  destruct (bool_decide _);
    [destruct (Body resp)|destruct (Marshal obj)]; cbn; auto.
Qed.

Section Serialization.
(** What the claim takes for granted of [encoding/json] on the
    objects of the client library: decoding inverts encoding. *)
Hypothesis Unmarshal_Marshal :
  ∀ (o : Object) (s : string), Marshal o = inr s → Unmarshal s = Some o.

(** C3: on a response with the success code, the object the client
    returned goes to [json.Marshal] as it is, and the text of the
    tool result is exactly what [json.Marshal] gives for it, so that
    decoding the text gives the object back.  (Should [json.Marshal]
    refuse the object there is no payload: the handler returns the
    wrapped error.) *)
Theorem success_payload_is_serialization (op : Operation)
    (getClient : GetClientFn Object) (request : CallToolRequest) (c : Call)
    (client : Client Object) (obj : Object) (resp : Response) :
  params op request = inr c →
  getClient = inr client →
  roundTrip client c = inr (obj, resp) →
  StatusCode resp = success_code op →
  match Marshal obj with
  | inr payload =>
      fst (handler op getClient request) = (Some (NewToolResultText payload), None) ∧
      Unmarshal payload = Some obj
  | inl err =>
      fst (handler op getClient request) = (None, Some (Errorf (marshal_prefix op) err))
  end.
Proof.
  intros Hp Hg Hr Hs. rewrite handler_run, Hp. unfold upstream_phase.
  rewrite Hg, Hr, bool_decide_eq_false_2 by (intros ?; done).
  destruct (Marshal obj) as [err|payload] eqn:Hm; [done|].
  split; [done|]. by apply Unmarshal_Marshal.
Qed.
End Serialization.

End HandlerFacts.

(** ** Parameter extraction with the helpers of the specification *)


Section HelperFacts.
Context (defaults : PaginationParams).
Implicit Types (r : CallToolRequest) (p : string).

Lemma requiredParam_inl r p err :
  ServerSpec.requiredParam r p = inl err → ParamError err.
Proof.
  unfold ServerSpec.requiredParam. repeat case_match; by intros [= <-].
Qed.

Lemma requiredParam_inr r p s :
  ServerSpec.requiredParam r p = inr s →
  Arguments r !! p = Some (VString s) ∧ s ≠ EmptyString.
Proof.
  unfold ServerSpec.requiredParam. repeat case_match; intros [= <-]; try done.
  split; [done|]. by eapply bool_decide_eq_false_1.
Qed.

Lemma RequiredInt_inl r p err :
  ServerSpec.RequiredInt r p = inl err → ParamError err.
Proof. unfold ServerSpec.RequiredInt. repeat case_match; by intros [= <-]. Qed.

Lemma RequiredInt_inr r p n :
  ServerSpec.RequiredInt r p = inr n → Arguments r !! p = Some (VNumber n).
Proof. unfold ServerSpec.RequiredInt. repeat case_match; by intros [= <-]. Qed.

Lemma OptionalParam_inl r p err :
  ServerSpec.OptionalParam r p = inl err → ParamError err.
Proof. unfold ServerSpec.OptionalParam. repeat case_match; by intros [= <-]. Qed.

Lemma optionalNumber_inl r p d err :
  ServerSpec.optionalNumber r p d = inl err → ParamError err.
Proof. unfold ServerSpec.optionalNumber. repeat case_match; by intros [= <-]. Qed.

Lemma optionalNumber_supplied r p d n m :
  ServerSpec.optionalNumber r p d = inr m →
  Arguments r !! p = Some (VNumber n) → m = n.
Proof. unfold ServerSpec.optionalNumber. intros H Hn. rewrite Hn in H. congruence. Qed.

Lemma OptionalPaginationParams_inl r err :
  ServerSpec.OptionalPaginationParams defaults r = inl err → ParamError err.
Proof.
  unfold ServerSpec.OptionalPaginationParams. intros H.
  apply bind_inl in H as [H|(? & _ & H)]; [by eapply optionalNumber_inl|].
  apply bind_inl in H as [H|(? & _ & H)]; [by eapply optionalNumber_inl|done].
Qed.

Lemma OptionalPaginationParams_inr r pg :
  ServerSpec.OptionalPaginationParams defaults r = inr pg →
  (∀ n, Arguments r !! "page" = Some (VNumber n) → page pg = n) ∧
  (∀ n, Arguments r !! "perPage" = Some (VNumber n) → perPage pg = n).
Proof.
  unfold ServerSpec.OptionalPaginationParams. intros H.
  apply bind_inr in H as (a & Ha & H). apply bind_inr in H as (b & Hb & H).
  injection H as <-. split; intros n Hn; cbn; by eapply optionalNumber_supplied.
Qed.

(** The helpers look at one argument only. *)
Lemma requiredParam_without r p q :
  p ≠ q → ServerSpec.requiredParam (without q r) p = ServerSpec.requiredParam r p.
Proof. intros ?. unfold ServerSpec.requiredParam, without; cbn. by rewrite lookup_delete_ne. Qed.

Lemma OptionalParam_without r p q :
  p ≠ q → ServerSpec.OptionalParam (without q r) p = ServerSpec.OptionalParam r p.
Proof. intros ?. unfold ServerSpec.OptionalParam, without; cbn. by rewrite lookup_delete_ne. Qed.

Lemma OptionalPaginationParams_without r q :
  q ≠ "page" → q ≠ "perPage" →
  ServerSpec.OptionalPaginationParams defaults (without q r) =
  ServerSpec.OptionalPaginationParams defaults r.
Proof.
  intros ??. unfold ServerSpec.OptionalPaginationParams, ServerSpec.optionalNumber, without; cbn.
  by rewrite !lookup_delete_ne.
Qed.

Lemma OptionalParam_absent r p :
  ServerSpec.OptionalParam (without p r) p = inr EmptyString.
Proof. unfold ServerSpec.OptionalParam, without; cbn. by rewrite lookup_delete_eq. Qed.

Lemma OptionalParam_supplied r p s :
  Arguments r !! p = Some (VString s) → ServerSpec.OptionalParam r p = inr s.
Proof. intros H. unfold ServerSpec.OptionalParam. by rewrite H. Qed.

(** What the helpers accept. *)
Lemma requiredParam_accepts r p s :
  Arguments r !! p = Some (VString s) → s ≠ EmptyString →
  ServerSpec.requiredParam r p = inr s.
Proof.
  intros H Hs. unfold ServerSpec.requiredParam. rewrite H.
  by rewrite bool_decide_eq_false_2.
Qed.

Lemma RequiredInt_accepts r p n :
  Arguments r !! p = Some (VNumber n) → ServerSpec.RequiredInt r p = inr n.
Proof. intros H. unfold ServerSpec.RequiredInt. by rewrite H. Qed.

Lemma OptionalParam_accepts r p :
  (∀ v, Arguments r !! p = Some v → json_type v = "string") →
  ∃ s, ServerSpec.OptionalParam r p = inr s.
Proof.
  intros H. unfold ServerSpec.OptionalParam.
  destruct (Arguments r !! p) as [v|]; [|by eexists].
  specialize (H v eq_refl). destruct v; try discriminate H. by eexists.
Qed.

Lemma optionalNumber_accepts r p d :
  (∀ v, Arguments r !! p = Some v → json_type v = "number") →
  ∃ n, ServerSpec.optionalNumber r p d = inr n.
Proof.
  intros H. unfold ServerSpec.optionalNumber.
  destruct (Arguments r !! p) as [v|]; [|by eexists].
  specialize (H v eq_refl). destruct v; try discriminate H. by eexists.
Qed.

Lemma OptionalPaginationParams_accepts r :
  (∀ f v, f ∈ ["page"; "perPage"] → Arguments r !! f = Some v → json_type v = "number") →
  ∃ pg, ServerSpec.OptionalPaginationParams defaults r = inr pg.
Proof.
  intros H. unfold ServerSpec.OptionalPaginationParams.
  destruct (optionalNumber_accepts r "page" (page defaults)) as [n ->];
    [intros v; apply H; by left|].
  destruct (optionalNumber_accepts r "perPage" (perPage defaults)) as [m ->];
    [intros v; apply H; right; by left|].
  by eexists.
Qed.

End HelperFacts.

Create HintDb params.

#[local] Hint Resolve requiredParam_inl RequiredInt_inl OptionalParam_inl
  OptionalPaginationParams_inl : params.

Section SpecFacts.
Context (defaults : PaginationParams) {Object : Type} {js : Json Object}.

(** The helpers of the specification, with the given defaults. *)
Local Abbreviation spec := (ServerSpec.helpers defaults).

Ltac unfold_params :=
  unfold params, ListDiscussions_params, GetDiscussion_params,
    GetDiscussionCategories_params, GetDiscussionComments_params,
    AddDiscussionComment_params, CreateDiscussion_params;
  cbn [requiredParam RequiredInt OptionalParam OptionalPaginationParams
       ServerSpec.helpers].

(** Inversion of a chain of extractions that failed. *)
Ltac failed_extraction H :=
  repeat (apply bind_inl in H as [H|(? & _ & H)];
          [by eauto with params|cbn beta zeta in H]);
  try done.

(** Inversion of a chain of extractions that succeeded. *)
Ltac extracted H :=
  repeat (let a := fresh "a" in
          let Ha := fresh "Ha" in
          apply bind_inr in H as (a & Ha & H); cbn beta zeta in H);
  try (injection H as <-).

Lemma params_inl_ParamError (op : Operation) (request : CallToolRequest) (err : error) :
  params (hp := spec) op request = inl err → ParamError err.
Proof.
  destruct op; unfold_params; intros H;
    (apply bind_inl in H as [H|(x & _ & H)];
     [|by repeat (let y := fresh in destruct x as [x y])]);
    failed_extraction H.
Qed.

Lemma params_inr_usable (op : Operation) (t : TranslationHelperFunc)
    (request : CallToolRequest) (c : Call) (p : string) (prop : PropertySchema) :
  params (hp := spec) op request = inr c →
  p ∈ Required (InputSchema (tool (hp := spec) op t)) →
  Properties (InputSchema (tool (hp := spec) op t)) !! p = Some prop →
  ∃ v, Arguments request !! p = Some v ∧ json_type v = ptype prop.
Proof.
  intros Hp Hin Hprop.
  destruct op; cbn in Hin; set_unfold in Hin; destruct_or?; subst p; try done;
    vm_compute in Hprop; injection Hprop as <-; cbn [ptype];
    revert Hp; unfold_params; intros Hp;
    apply bind_inr in Hp as (x & Hp & _); extracted Hp;
    repeat match goal with
           | H : ServerSpec.requiredParam _ _ = inr _ |- _ =>
               apply requiredParam_inr in H as [H _]
           | H : ServerSpec.RequiredInt _ _ = inr _ |- _ =>
               apply RequiredInt_inr in H
           end;
    eauto.
Qed.

(** C1: when a parameter that the tool declares as required is
    missing from the request, or is there with another type than the
    declared one, the handler returns a tool error whose text is that
    of a parameter error, and nothing has happened upstream: the
    client has not been asked for, no request has been sent. *)
Theorem unusable_required_param_rejected (op : Operation) (t : TranslationHelperFunc)
    (getClient : GetClientFn Object) (request : CallToolRequest)
    (p : string) (prop : PropertySchema) :
  p ∈ Required (InputSchema (tool (hp := spec) op t)) →
  Properties (InputSchema (tool (hp := spec) op t)) !! p = Some prop →
  unusable request p (ptype prop) →
  ∃ err, ParamError err ∧
    handler (hp := spec) op getClient request =
      ((Some (NewToolResultError (Error err)), None), []).
Proof.
  intros Hin Hprop Hbad. rewrite handler_run.
  destruct (params (hp := spec) op request) as [err|c] eqn:Hp.
  - exists err. split; [by eapply params_inl_ParamError|done].
  - destruct (params_inr_usable op t request c p prop Hp Hin Hprop) as (v & Hv & Hty).
    destruct Hbad as [Hnone|(v' & Hv' & Hne)]; congruence.
Qed.

(** C5: add_discussion_comment with a [body] that is the empty
    string: the handler returns a parameter error as a tool error and
    nothing has happened upstream.  With the other three parameters in
    order, as in the package's test, the text is "missing required
    parameter: body". *)
Theorem empty_comment_body_rejected (getClient : GetClientFn Object)
    (request : CallToolRequest) :
  Arguments request !! "body" = Some (VString EmptyString) →
  (∃ err, ParamError err ∧
     handler (hp := spec) add_discussion_comment getClient request =
       ((Some (NewToolResultError (Error err)), None), [])) ∧
  (∀ owner repo number,
     requiredParam (Helpers := spec) request "owner" = inr owner →
     requiredParam (Helpers := spec) request "repo" = inr repo →
     RequiredInt (Helpers := spec) request "discussion_number" = inr number →
     handler (hp := spec) add_discussion_comment getClient request =
       ((Some (NewToolResultError "missing required parameter: body"), None), [])).
Proof.
  intros Hbody.
  assert (Hreq : ServerSpec.requiredParam request "body" = inl (ErrMissingParam "body"))
    by (unfold ServerSpec.requiredParam; by rewrite Hbody).
  split.
  - rewrite handler_run.
    destruct (params (hp := spec) add_discussion_comment request) as [err|c] eqn:Hp.
    + exists err. split; [by eapply params_inl_ParamError|done].
    + revert Hp. unfold_params. intros Hp.
      apply bind_inr in Hp as (x & Hp & _). extracted Hp. congruence.
  - intros owner repo number Ho Hr Hn. rewrite handler_run.
    unfold_params. cbn in Ho, Hr, Hn. by rewrite Ho, Hr, Hn, Hreq.
Qed.

(** C6: in the three operations with pagination, a request whose
    other parameters are in order (owner and repo non-empty strings, a
    discussion number where the operation has one, filters that are
    strings) and whose [page] and [perPage], where supplied, are
    numbers, is accepted; and of every accepted request the [page] and
    the [perPage] supplied as numbers are, unchanged, the [Page] and the
    [PerPage] of the options of the call built from it, which is the one
    request sent once the client is there. *)
Theorem pagination_forwarded (op : Operation) (getClient : GetClientFn Object)
    (request : CallToolRequest) :
  paginated op = true →
  (∀ owner repo,
     Arguments request !! "owner" = Some (VString owner) → owner ≠ EmptyString →
     Arguments request !! "repo" = Some (VString repo) → repo ≠ EmptyString →
     (op = get_discussion_comments →
        ∃ number, number ≠ 0 ∧
          Arguments request !! "discussion_number" = Some (VNumber number)) →
     (op = list_discussions →
        ∀ f v, f ∈ ["direction"; "category_id"; "pinned"] →
               Arguments request !! f = Some v → json_type v = "string") →
     (∀ f v, f ∈ ["page"; "perPage"] →
             Arguments request !! f = Some v → json_type v = "number") →
     ∃ c lo,
       params (hp := spec) op request = inr c ∧
       call_owner c = owner ∧ call_repo c = repo ∧
       call_ListOptions c = Some lo ∧
       (∀ n, Arguments request !! "page" = Some (VNumber n) → Page lo = n) ∧
       (∀ n, Arguments request !! "perPage" = Some (VNumber n) → PerPage lo = n) ∧
       (∀ client, getClient = inr client →
          requests (snd (handler (hp := spec) op getClient request)) = [c])) ∧
  (∀ c, params (hp := spec) op request = inr c →
     (∃ lo, call_ListOptions c = Some lo ∧
        (∀ n, Arguments request !! "page" = Some (VNumber n) → Page lo = n) ∧
        (∀ n, Arguments request !! "perPage" = Some (VNumber n) → PerPage lo = n)) ∧
     (∀ client, getClient = inr client →
        requests (snd (handler (hp := spec) op getClient request)) = [c])).
Proof.
  intros Hpag.
  assert (Hforward : ∀ c, params (hp := spec) op request = inr c →
     (∃ lo, call_ListOptions c = Some lo ∧
        (∀ n, Arguments request !! "page" = Some (VNumber n) → Page lo = n) ∧
        (∀ n, Arguments request !! "perPage" = Some (VNumber n) → PerPage lo = n)) ∧
     (∀ client, getClient = inr client →
        requests (snd (handler (hp := spec) op getClient request)) = [c])).
  { intros c Hp. split.
    - destruct op; try done; revert Hp; unfold_params; intros Hp;
        apply bind_inr in Hp as (x & Hp & Hc); extracted Hp;
        injection Hc as <-; cbn;
        match goal with
        | H : ServerSpec.OptionalPaginationParams _ _ = inr _ |- _ =>
            apply OptionalPaginationParams_inr in H as [Hpage HperPage]
        end;
        eauto.
    - intros client ->. rewrite handler_run, Hp. apply upstream_phase_requests. }
  split; [|exact Hforward].
  intros owner repo Ho Hone Hr Hrne Hnumber Hfilters Hpages.
  assert (∃ c, params (hp := spec) op request = inr c ∧
               call_owner c = owner ∧ call_repo c = repo) as (c & Hc & Hco & Hcr).
  { destruct (OptionalPaginationParams_accepts defaults request Hpages) as [pg Hpg].
    destruct op; try done; unfold_params;
      rewrite (requiredParam_accepts _ _ _ Ho Hone),
        (requiredParam_accepts _ _ _ Hr Hrne); cbn.
    - destruct (OptionalParam_accepts request "direction") as [d ->];
        [intros v; apply Hfilters; [done|by left]|].
      destruct (OptionalParam_accepts request "category_id") as [ca ->];
        [intros v; apply Hfilters; [done|right; by left]|].
      destruct (OptionalParam_accepts request "pinned") as [pi ->];
        [intros v; apply Hfilters; [done|right; right; by left]|].
      cbn. rewrite Hpg. cbn. by eexists.
    - rewrite Hpg. cbn. by eexists.
    - destruct (Hnumber eq_refl) as (number & _ & Hn).
      rewrite (RequiredInt_accepts _ _ _ Hn). cbn. rewrite Hpg. cbn. by eexists. }
  destruct (Hforward c Hc) as [(lo & Hlo & Hpage & HperPage) Hsent].
  exists c, lo. by repeat split.
Qed.

(** C8: the input schema each tool declares has as its [Required]
    list the required parameters of the tool-surface table, and the
    properties it declares besides are the optional parameters of the
    table; so get_discussion and create_discussion declare no optional
    parameter at all. *)
Theorem schema_matches_tool_surface (op : Operation) (t : TranslationHelperFunc) :
  Required (InputSchema (tool (hp := spec) op t)) = fst (tool_surface op) ∧
  dom (Properties (InputSchema (tool (hp := spec) op t)))
    ∖ list_to_set (Required (InputSchema (tool (hp := spec) op t)))
  =@{gset string} list_to_set (snd (tool_surface op)).
Proof. destruct op; split; vm_compute; reflexivity. Qed.

(** The extraction of list_discussions does not tell a filter that is
    an unusable string from one that is absent. *)
Lemma ListDiscussions_params_unusable_filter (request : CallToolRequest) (p s : string) :
  Arguments request !! p = Some (VString s) →
  (p = "direction" ∧ s = EmptyString) ∨ (p = "category_id" ∧ s = EmptyString) ∨
  (p = "pinned" ∧ s ≠ "true" ∧ s ≠ "false") →
  ListDiscussions_params (hp := spec) request =
  ListDiscussions_params (hp := spec) (without p request).
Proof.
  intros Hs Hp. unfold_params.
  destruct Hp as [[-> ->]|[[-> ->]|(-> & Ht & Hf)]];
    rewrite OptionalParam_absent, (OptionalParam_supplied _ _ _ Hs),
      !requiredParam_without, !OptionalParam_without,
      OptionalPaginationParams_without by done;
    try reflexivity.
  destruct (ServerSpec.requiredParam request "owner"); [done|].
  destruct (ServerSpec.requiredParam request "repo"); [done|].
  destruct (ServerSpec.OptionalParam request "direction"); [done|].
  destruct (ServerSpec.OptionalParam request "category_id"); [done|].
  cbn. by rewrite (bool_decide_eq_false_2 (s = "true")),
    (bool_decide_eq_false_2 (s = "false")) by done.
Qed.

(** C10: in list_discussions a [direction] or a [category_id] that
    is the empty string, and a [pinned] that is a string other than
    "true" and "false", change nothing: the handler does what it does
    for the request without that argument (so no error comes of it),
    and when the extraction succeeds the field of the options is the
    zero value, [Pinned] being nil. *)
Theorem unusable_filters_are_absent (getClient : GetClientFn Object)
    (request : CallToolRequest) :
  (Arguments request !! "direction" = Some (VString EmptyString) →
     handler (hp := spec) list_discussions getClient request =
       handler (hp := spec) list_discussions getClient (without "direction" request) ∧
     ∀ owner repo opts,
       ListDiscussions_params (hp := spec) request = inr (owner, repo, opts) →
       Direction opts = EmptyString) ∧
  (Arguments request !! "category_id" = Some (VString EmptyString) →
     handler (hp := spec) list_discussions getClient request =
       handler (hp := spec) list_discussions getClient (without "category_id" request) ∧
     ∀ owner repo opts,
       ListDiscussions_params (hp := spec) request = inr (owner, repo, opts) →
       CategoryID opts = EmptyString) ∧
  (∀ s, Arguments request !! "pinned" = Some (VString s) →
     s ≠ "true" → s ≠ "false" →
     handler (hp := spec) list_discussions getClient request =
       handler (hp := spec) list_discussions getClient (without "pinned" request) ∧
     ∀ owner repo opts,
       ListDiscussions_params (hp := spec) request = inr (owner, repo, opts) →
       Pinned opts = None).
Proof.
  split; [|split].
  - intros Hs. split.
    + rewrite !handler_run. unfold params.
      by rewrite (ListDiscussions_params_unusable_filter _ _ _ Hs) by auto.
    + intros owner repo opts Hp.
      apply ListDiscussions_params_inr in Hp
        as (d & c & p & pg & Hd & Hc & Hp & _ & HD & HC & HP & _).
      cbn in Hd, Hc. rewrite (OptionalParam_supplied _ _ _ Hs) in Hd. congruence.
  - intros Hs. split.
    + rewrite !handler_run. unfold params.
      by rewrite (ListDiscussions_params_unusable_filter _ _ _ Hs) by auto.
    + intros owner repo opts Hp.
      apply ListDiscussions_params_inr in Hp
        as (d & c & p & pg & Hd & Hc & Hp & _ & HD & HC & HP & _).
      cbn in Hd, Hc. rewrite (OptionalParam_supplied _ _ _ Hs) in Hc. congruence.
  - intros s Hs Ht Hf. split.
    + rewrite !handler_run. unfold params.
      by rewrite (ListDiscussions_params_unusable_filter _ _ _ Hs) by auto.
    + intros owner repo opts Hp.
      apply ListDiscussions_params_inr in Hp
        as (d & c & p & pg & _ & _ & Hp & _ & _ & _ & HP & _).
      cbn in Hp. rewrite (OptionalParam_supplied _ _ _ Hs) in Hp.
      injection Hp as <-. by rewrite !bool_decide_eq_false_2 in HP.
Qed.

End SpecFacts.

(** ** Further properties of the handlers, for any parameter helpers *)

Section HandlerOutcomes.
Context {hp : Helpers} {Object : Type} {js : Json Object}.

(** X1: with the parameters extracted, a [getClient] that fails makes
    the handler return that error behind "failed to get GitHub client: "
    with no tool result; the client has been asked for and nothing else
    has happened. *)
Theorem client_failure_is_hard_error (op : Operation) (getClient : GetClientFn Object)
    (request : CallToolRequest) (c : Call) (err : error) :
  params op request = inr c →
  getClient = inl err →
  handler op getClient request =
    ((None, Some (Errorf "failed to get GitHub client: " err)), [EvGetClient]).
Proof. intros Hp ->. by rewrite handler_run, Hp. Qed.

(** X2: whatever the request and the upstream service, the effects of
    a run are one of: nothing; the client asked for; then one request;
    then the body closed, possibly read before.  So no run sends two
    requests, and no body is read or closed that no request brought. *)
Theorem run_effects_shape (op : Operation) (getClient : GetClientFn Object)
    (request : CallToolRequest) :
  let tr := snd (handler op getClient request) in
  (tr = [] ∨ tr = [EvGetClient] ∨
   ∃ c, tr = [EvGetClient; EvRequest c] ∨
        tr = [EvGetClient; EvRequest c; EvClose] ∨
        tr = [EvGetClient; EvRequest c; EvReadAll; EvClose]) ∧
  (length (requests tr) ≤ 1)%nat.
Proof.
  cbn zeta. rewrite handler_run.
  destruct (params op request) as [err|c]; [cbn; auto|].
  unfold upstream_phase.
  destruct getClient as [err|client]; [cbn; auto|].
  destruct (roundTrip client c) as [err|[obj resp]]; [cbn; eauto 6|].
  destruct (bool_decide _);
    [destruct (Body resp)|destruct (Marshal obj)]; cbn; eauto 8.
Qed.

(** X3: once the client method has returned a response, its body is
    closed exactly once and last, whatever the handler returns; it is
    read, once and before, exactly when the status is not the success
    code.  When the client method returns an error nothing is read or
    closed. *)
Theorem response_body_closed (op : Operation) (getClient : GetClientFn Object)
    (request : CallToolRequest) (c : Call) (client : Client Object) :
  params op request = inr c →
  getClient = inr client →
  snd (handler op getClient request) =
    match roundTrip client c with
    | inl _ => [EvGetClient; EvRequest c]
    | inr (_, resp) =>
        if bool_decide (StatusCode resp = success_code op)
        then [EvGetClient; EvRequest c; EvClose]
        else [EvGetClient; EvRequest c; EvReadAll; EvClose]
    end.
Proof.
  intros Hp ->. rewrite handler_run, Hp. unfold upstream_phase.
  destruct (roundTrip client c) as [err|[obj resp]]; [done|].
  destruct (decide (StatusCode resp = success_code op)) as [Hs|Hs].
  - rewrite (bool_decide_eq_true_2 _ Hs), bool_decide_eq_false_2 by (intros ?; done).
    by destruct (Marshal obj).
  - rewrite (bool_decide_eq_false_2 _ Hs), bool_decide_eq_true_2 by done.
    by destruct (Body resp).
Qed.

(** X4: every handler extracts [owner] first and [repo] second: a
    failing [owner] is the error reported whatever else is wrong with
    the request, and with [owner] in order a failing [repo] is. *)
Theorem owner_then_repo_reported (op : Operation) (getClient : GetClientFn Object)
    (request : CallToolRequest) (err : error) :
  (requiredParam request "owner" = inl err →
     handler op getClient request = ((Some (NewToolResultError (Error err)), None), [])) ∧
  (∀ owner, requiredParam request "owner" = inr owner →
     requiredParam request "repo" = inl err →
     handler op getClient request = ((Some (NewToolResultError (Error err)), None), [])).
Proof.
  split.
  - intros Ho. rewrite handler_run.
    destruct op; unfold params, ListDiscussions_params, GetDiscussion_params,
      GetDiscussionCategories_params, GetDiscussionComments_params,
      AddDiscussionComment_params, CreateDiscussion_params; by rewrite Ho.
  - intros owner Ho Hr. rewrite handler_run.
    destruct op; unfold params, ListDiscussions_params, GetDiscussion_params,
      GetDiscussionCategories_params, GetDiscussionComments_params,
      AddDiscussionComment_params, CreateDiscussion_params; rewrite Ho; cbn; by rewrite Hr.
Qed.

(** X5: a handler returns a tool result that is not flagged as an
    error only if everything went well upstream: the parameters were
    extracted, the client obtained, the call answered with the success
    code of the operation, and the result is the marshalled object. *)
Theorem success_result_only_on_success (op : Operation) (getClient : GetClientFn Object)
    (request : CallToolRequest) (result : CallToolResult) (err : option error) :
  fst (handler op getClient request) = (Some result, err) →
  IsError result = false →
  ∃ c client obj resp payload,
    params op request = inr c ∧ getClient = inr client ∧
    roundTrip client c = inr (obj, resp) ∧
    StatusCode resp = success_code op ∧
    Marshal obj = inr payload ∧
    result = NewToolResultText payload ∧ err = None.
Proof.
  rewrite handler_run.
  destruct (params op request) as [e|c] eqn:Hp; [by intros [= <- <-]|].
  unfold upstream_phase.
  destruct getClient as [e|client]; [done|].
  destruct (roundTrip client c) as [e|[obj resp]] eqn:Hr; [done|].
  case_bool_decide as Hs.
  - destruct (Body resp); [done|by intros [= <- <-]].
  - destruct (Marshal obj) as [e|payload] eqn:Hm; [done|].
    intros [= <- <-] _. exists c, client, obj, resp, payload.
    repeat split; try done.
Qed.

(** X6: a hard error never comes from the parameters: when a handler
    returns an error the parameters were extracted and the client was
    asked for, and the error is a wrapped one, behind one of four
    messages: that of the client, that of the operation, that of the
    body read, that of the marshalling. *)
Theorem hard_error_origin (op : Operation) (getClient : GetClientFn Object)
    (request : CallToolRequest) (result : option CallToolResult) (err : error) :
  fst (handler op getClient request) = (result, Some err) →
  result = None ∧
  (∃ c, params op request = inr c) ∧
  head (snd (handler op getClient request)) = Some EvGetClient ∧
  ∃ prefix inner, err = ErrWrap prefix inner ∧
    (prefix = "failed to get GitHub client: " ∨ prefix = failure_prefix op ∨
     prefix = "failed to read response body: " ∨ prefix = marshal_prefix op).
Proof.
  rewrite handler_run.
  destruct (params op request) as [e|c] eqn:Hp; [done|].
  unfold upstream_phase.
  unfold Errorf.
  destruct getClient as [e|client];
    [intros [= <- <-]; repeat split; eauto 10|].
  destruct (roundTrip client c) as [e|[obj resp]];
    [intros [= <- <-]; repeat split; eauto 10|].
  destruct (bool_decide _);
    [destruct (Body resp)|destruct (Marshal obj)]; try done;
    intros [= <- <-]; repeat split; eauto 10.
Qed.

(** X7: a tool result, when there is one, has exactly one content
    item, of type "text"; it is flagged as an error exactly when it is
    not the marshalled object. *)
Theorem result_is_single_text (op : Operation) (getClient : GetClientFn Object)
    (request : CallToolRequest) (result : CallToolResult) (err : option error) :
  fst (handler op getClient request) = (Some result, err) →
  ∃ text, Content result = [ {| Type_ := "text"; Text := text |} ] ∧
    (IsError result = true ∨
     ∃ c client obj resp, getClient = inr client ∧
       roundTrip client c = inr (obj, resp) ∧ Marshal obj = inr text).
Proof.
  rewrite handler_run.
  destruct (params op request) as [e|c] eqn:Hp; [intros [= <- <-]; cbn; eauto|].
  unfold upstream_phase.
  destruct getClient as [e|client]; [done|].
  destruct (roundTrip client c) as [e|[obj resp]] eqn:Hr; [done|].
  destruct (bool_decide _).
  - destruct (Body resp); [done|intros [= <- <-]; cbn; eauto].
  - destruct (Marshal obj) as [e|payload] eqn:Hm; [done|].
    intros [= <- <-]. cbn. eexists. split; [done|]. right. eauto 10.
Qed.

(** X9: the call built from a request addresses what was extracted
    from it: its owner and repository are the results of the
    extraction of [owner] and [repo], and its discussion number, for
    the three operations on one discussion, that of
    [discussion_number]. *)
Theorem validated_call_addresses_request (op : Operation) (request : CallToolRequest)
    (c : Call) :
  params op request = inr c →
  requiredParam request "owner" = inr (call_owner c) ∧
  requiredParam request "repo" = inr (call_repo c) ∧
  match call_number c with
  | Some number => RequiredInt request "discussion_number" = inr number
  | None => op = list_discussions ∨ op = get_discussion_categories ∨ op = create_discussion
  end.
Proof.
  destruct op; unfold params, ListDiscussions_params, GetDiscussion_params,
    GetDiscussionCategories_params, GetDiscussionComments_params,
    AddDiscussionComment_params, CreateDiscussion_params; intros H;
    apply bind_inr in H as (x & H & Hc);
    repeat (let a := fresh "a" in
            let Ha := fresh "Ha" in
            apply bind_inr in H as (a & Ha & H); cbn beta zeta in H);
    unfold mret, Res_ret in H; injection H as <-; cbn in Hc;
    unfold mret, Res_ret in Hc; injection Hc as <-; cbn; auto.
Qed.

(** X10: what the two writing operations send is what was extracted:
    the comment of add_discussion_comment has as its body the result of
    the extraction of [body] and no other field; the request of
    create_discussion has as title, body and category the results of the
    extraction of [title], [body] and [category_id]. *)
Theorem write_payloads_carry_parameters (request : CallToolRequest) (c : Call) :
  (params add_discussion_comment request = inr c →
     ∃ number body,
       RequiredInt request "discussion_number" = inr number ∧
       requiredParam request "body" = inr body ∧
       c = CallCreateDiscussionComment (call_owner c) (call_repo c) number
             {| DiscussionComment_Body := Some body |}) ∧
  (params create_discussion request = inr c →
     ∃ title body categoryID,
       requiredParam request "title" = inr title ∧
       requiredParam request "body" = inr body ∧
       requiredParam request "category_id" = inr categoryID ∧
       c = CallCreateDiscussion (call_owner c) (call_repo c)
             {| DiscussionRequest_Title := Some title;
                DiscussionRequest_Body := Some body;
                DiscussionRequest_CategoryID := Some categoryID |}).
Proof.
  split; unfold params, AddDiscussionComment_params, CreateDiscussion_params; intros H;
    apply bind_inr in H as (x & H & Hc);
    repeat (let a := fresh "a" in
            let Ha := fresh "Ha" in
            apply bind_inr in H as (a & Ha & H); cbn beta zeta in H);
    unfold mret, Res_ret in H; injection H as <-; cbn in Hc;
    unfold mret, Res_ret in Hc; injection Hc as <-; cbn; eauto 10.
Qed.

(** X11: the options of list_discussions mirror the extraction: the
    direction and the category are the strings extracted, as they are,
    whether or not the direction is one the schema enumerates; the
    pinned filter is true exactly for the string "true", false exactly
    for "false", and nil for every other string. *)
Theorem list_options_mirror_extraction (request : CallToolRequest) (owner repo : string)
    (opts : DiscussionListOptions) (direction categoryID pinnedStr : string) :
  ListDiscussions_params request = inr (owner, repo, opts) →
  OptionalParam request "direction" = inr direction →
  OptionalParam request "category_id" = inr categoryID →
  OptionalParam request "pinned" = inr pinnedStr →
  Direction opts = direction ∧ CategoryID opts = categoryID ∧
  (Pinned opts = Some true ↔ pinnedStr = "true") ∧
  (Pinned opts = Some false ↔ pinnedStr = "false") ∧
  (Pinned opts = None ↔ pinnedStr ≠ "true" ∧ pinnedStr ≠ "false").
Proof.
  intros Hp Hd Hc Hpin.
  apply ListDiscussions_params_inr in Hp
    as (d & c & p & pg & Hd' & Hc' & Hp' & _ & HD & HC & HP & _).
  rewrite Hd in Hd'. rewrite Hc in Hc'. rewrite Hpin in Hp'.
  injection Hd' as <-. injection Hc' as <-. injection Hp' as <-.
  rewrite HP. repeat split; try done; repeat case_bool_decide; try done;
    try (intros [??]; done); subst; done.
Qed.

End HandlerOutcomes.

(** ** The handlers and their declared schema *)

Section DeclaredArguments.
Context {hp : Helpers} {Object : Type} {js : Json Object}.

(** The helpers look a parameter up by its name and at nothing else;
    the pagination option declares [page] and [perPage] and leaves the
    rest of the tool as it is. *)
Hypothesis requiredParam_local : ∀ r1 r2 p,
  Arguments r1 !! p = Arguments r2 !! p → requiredParam r1 p = requiredParam r2 p.
Hypothesis RequiredInt_local : ∀ r1 r2 p,
  Arguments r1 !! p = Arguments r2 !! p → RequiredInt r1 p = RequiredInt r2 p.
Hypothesis OptionalParam_local : ∀ r1 r2 p,
  Arguments r1 !! p = Arguments r2 !! p → OptionalParam r1 p = OptionalParam r2 p.
Hypothesis OptionalPaginationParams_local : ∀ r1 r2,
  Arguments r1 !! "page" = Arguments r2 !! "page" →
  Arguments r1 !! "perPage" = Arguments r2 !! "perPage" →
  OptionalPaginationParams r1 = OptionalPaginationParams r2.
Hypothesis WithPagination_declares : ∀ t,
  dom (Properties (InputSchema (WithPagination t))) =
  dom (Properties (InputSchema t)) ∪ {["page"; "perPage"]}.

Ltac declared :=
  match goal with
  | |- _ ∈ dom (Properties (InputSchema (WithPagination _))) =>
      rewrite WithPagination_declares; apply elem_of_union;
      first [ left; apply elem_of_dom; vm_compute; by eexists
            | right; apply elem_of_union; left; by apply elem_of_singleton
            | right; apply elem_of_union; right; by apply elem_of_singleton ]
  | |- _ => apply elem_of_dom; vm_compute; by eexists
  end.

(** X8: a handler reads no argument that its tool does not declare:
    two requests that agree on every property of the declared schema
    get the same outcome and leave the same trace. *)
Theorem undeclared_arguments_ignored (op : Operation) (t : TranslationHelperFunc)
    (getClient : GetClientFn Object) (r1 r2 : CallToolRequest) :
  (∀ p, p ∈ dom (Properties (InputSchema (tool op t))) →
        Arguments r1 !! p = Arguments r2 !! p) →
  handler op getClient r1 = handler op getClient r2.
Proof.
  intros Hagree. rewrite !handler_run.
  assert (params op r1 = params op r2) as ->; [|done].
  destruct op; unfold params, ListDiscussions_params, GetDiscussion_params,
    GetDiscussionCategories_params, GetDiscussionComments_params,
    AddDiscussionComment_params, CreateDiscussion_params;
    unfold tool, ListDiscussions_tool, GetDiscussion_tool, GetDiscussionCategories_tool,
      GetDiscussionComments_tool, AddDiscussionComment_tool, CreateDiscussion_tool,
      NewTool in Hagree; cbn [foldl] in Hagree;
    repeat match goal with
           | |- context [requiredParam r1 ?p] =>
               rewrite (requiredParam_local r1 r2 p) by (apply Hagree; declared)
           | |- context [RequiredInt r1 ?p] =>
               rewrite (RequiredInt_local r1 r2 p) by (apply Hagree; declared)
           | |- context [OptionalParam r1 ?p] =>
               rewrite (OptionalParam_local r1 r2 p) by (apply Hagree; declared)
           | |- context [OptionalPaginationParams r1] =>
               rewrite (OptionalPaginationParams_local r1 r2)
                 by (apply Hagree; declared)
           end;
    reflexivity.
Qed.

End DeclaredArguments.

Section ToolIdentity.
Context {hp : Helpers}.

(** The pagination option does not rename or redescribe a tool. *)
Hypothesis WithPagination_Name : ∀ t, Name (WithPagination t) = Name t.
Hypothesis WithPagination_Description : ∀ t,
  Description (WithPagination t) = Description (t : Tool).

Ltac tool_field :=
  unfold tool, ListDiscussions_tool, GetDiscussion_tool, GetDiscussionCategories_tool,
    GetDiscussionComments_tool, AddDiscussionComment_tool, CreateDiscussion_tool,
    NewTool; cbn [foldl];
  rewrite ?WithPagination_Name, ?WithPagination_Description.

Lemma tool_Name (op : Operation) (t : TranslationHelperFunc) :
  Name (tool op t) =
    match op with
    | list_discussions => "list_discussions"
    | get_discussion => "get_discussion"
    | get_discussion_categories => "get_discussion_categories"
    | get_discussion_comments => "get_discussion_comments"
    | add_discussion_comment => "add_discussion_comment"
    | create_discussion => "create_discussion"
    end.
Proof. destruct op; tool_field; reflexivity. Qed.

(** X12: each tool carries the name of its operation whatever the
    translation helper, and no two of the six tools share a name. *)
Theorem tool_names_distinct (op op' : Operation) (t t' : TranslationHelperFunc) :
  Name (tool op t) = Name (tool op t') ∧
  (Name (tool op t) = Name (tool op' t') → op = op').
Proof.
  rewrite !tool_Name. split; [done|]. by destruct op, op'.
Qed.

(** X13: the description of a tool is what the translation helper
    makes of the tool's key and default text, in one call, so that a
    translation replaces it; the default, which the null helper gives
    back, is not empty. *)
Theorem tool_description_translated (op : Operation) :
  ∃ key default,
    (∀ t, Description (tool op t) = t key default) ∧
    Description (tool op NullTranslationHelper) = default ∧
    default ≠ EmptyString.
Proof.
  destruct op; eexists _, _; (split; [intros t; tool_field; reflexivity|]);
    (split; [tool_field; reflexivity|done]).
Qed.

End ToolIdentity.

(** ** The properties at the fixtures *)

Section AtFixtures.
Import Fixtures.

(** Runs of the handlers on the requests of the package's tests, against
    the fixture clients. *)

Example list_discussions_with_all_parameters :
  handler list_discussions (answering ok_response) list_request =
    ((Some (NewToolResultText "[123,456]"), None),
     [EvGetClient;
      EvRequest (CallListDiscussions "owner" "repo"
                   {| Direction := "desc"; CategoryID := "1"; Pinned := Some true;
                      DiscussionListOptions_ListOptions := {| Page := 1; PerPage := 30 |} |});
      EvClose]).
Proof. vm_compute. reflexivity. Qed.

Example get_discussion_not_found :
  handler get_discussion (answering not_found_response) get_request =
    ((Some (NewToolResultError "failed to get discussion: Not Found"), None),
     [EvGetClient; EvRequest (CallGetDiscussion "owner" "repo" 42); EvReadAll; EvClose]).
Proof. vm_compute. reflexivity. Qed.

Example get_discussion_unreachable :
  handler get_discussion unreachable get_request =
    ((None, Some (ErrWrap "failed to get discussion: "
                    (ErrExternal "dial tcp: connection refused"))),
     [EvGetClient; EvRequest (CallGetDiscussion "owner" "repo" 42)]).
Proof. vm_compute. reflexivity. Qed.

Example add_discussion_comment_empty_body :
  handler add_discussion_comment (answering ok_response) empty_body_request =
    ((Some (NewToolResultError "missing required parameter: body"), None), []).
Proof. vm_compute. reflexivity. Qed.

Example list_discussions_unusable_filters :
  params list_discussions unusable_filters_request =
    inr (CallListDiscussions "owner" "repo"
           {| Direction := EmptyString; CategoryID := EmptyString; Pinned := None;
              DiscussionListOptions_ListOptions := {| Page := 1; PerPage := 30 |} |}).
Proof. vm_compute. reflexivity. Qed.

Lemma unusable_required_param_rejected_witness :
  "owner" ∈ Required (InputSchema (tool get_discussion NullTranslationHelper)) ∧
  unusable no_owner_request "owner" "string" ∧
  ∃ err, ParamError err ∧
    handler get_discussion (answering ok_response) no_owner_request =
      ((Some (NewToolResultError (Error err)), None), []).
Proof.
  assert (Hin : "owner" ∈ Required (InputSchema (tool get_discussion NullTranslationHelper)))
    by (vm_compute; left).
  assert (Hbad : unusable no_owner_request "owner" "string")
    by (left; vm_compute; reflexivity).
  split; [exact Hin|]. split; [exact Hbad|].
  apply (unusable_required_param_rejected defaults get_discussion NullTranslationHelper
           (answering ok_response) no_owner_request "owner"
           {| ptype := "string"; pdescription := Some "The owner of the repository";
              penum := None; prequired := false |});
    [exact Hin | vm_compute; reflexivity | exact Hbad].
Defined.

Lemma non_success_status_forwards_body_witness :
  fst (handler get_discussion (answering not_found_response) get_request) =
    (Some (NewToolResultError "failed to get discussion: Not Found"), None).
Proof.
  refine (proj1 (proj2 (non_success_status_forwards_body get_discussion
            (answering not_found_response) get_request
            (CallGetDiscussion "owner" "repo" 42) _ discussion not_found_response
            _ eq_refl _)) _);
    [vm_compute; reflexivity | reflexivity | vm_compute; discriminate].
Defined.

(** C2, as stated, fails: the call of get_discussion succeeds with a
    404 whose body cannot be read; the handler returns no textual tool
    error but a nil result and the read error. *)
Lemma non_success_status_unreadable_body :
  params get_discussion get_request = inr (CallGetDiscussion "owner" "repo" 42) ∧
  (∃ client, answering broken_body_response = inr client ∧
     roundTrip client (CallGetDiscussion "owner" "repo" 42)
       = inr (discussion, broken_body_response)) ∧
  StatusCode broken_body_response ≠ success_code get_discussion ∧
  fst (handler get_discussion (answering broken_body_response) get_request) =
    (None, Some (Errorf "failed to read response body: " (ErrExternal "unexpected EOF"))) ∧
  ∀ text, fst (handler get_discussion (answering broken_body_response) get_request)
          ≠ (Some (NewToolResultError text), None).
Proof.
  split; [vm_compute; reflexivity|]. split; [eexists; split; reflexivity|].
  split; [vm_compute; discriminate|]. split; [vm_compute; reflexivity|].
  intros text. vm_compute. discriminate.
Qed.

Lemma success_payload_is_serialization_witness :
  fst (handler get_discussion (answering ok_response) get_request) =
    (Some (NewToolResultText "[123,456]"), None) ∧
  Unmarshal "[123,456]" = Some discussion.
Proof.
  refine (success_payload_is_serialization (js := RawMessage) _ get_discussion
            (answering ok_response) get_request
            (CallGetDiscussion "owner" "repo" 42) _ discussion ok_response
            _ eq_refl _ _);
    [intros o s [= ->]; reflexivity | vm_compute; reflexivity | reflexivity
    | vm_compute; reflexivity].
Defined.

Lemma transport_failure_is_hard_error_witness :
  fst (handler get_discussion unreachable get_request) =
    (None, Some (Errorf "failed to get discussion: "
                   (ErrExternal "dial tcp: connection refused"))).
Proof.
  refine (transport_failure_is_hard_error get_discussion unreachable get_request
            (CallGetDiscussion "owner" "repo" 42) _ _ _ eq_refl _);
    [vm_compute; reflexivity | reflexivity].
Defined.

Lemma empty_comment_body_rejected_witness :
  handler add_discussion_comment (answering ok_response) empty_body_request =
    ((Some (NewToolResultError "missing required parameter: body"), None), []).
Proof.
  refine (proj2 (empty_comment_body_rejected defaults (answering ok_response)
                   empty_body_request _) "owner" "repo" 42 _ _ _);
    vm_compute; reflexivity.
Defined.

Lemma pagination_forwarded_witness :
  (∃ c lo,
     params get_discussion_categories categories_page_request = inr c ∧
     call_ListOptions c = Some lo ∧ Page lo = 2 ∧ PerPage lo = 10 ∧
     requests (snd (handler get_discussion_categories (answering ok_response)
                      categories_page_request)) = [c]) ∧
  (∃ c lo,
     params get_discussion_comments comments_page_request = inr c ∧
     call_ListOptions c = Some lo ∧ Page lo = 2 ∧ PerPage lo = 10 ∧
     requests (snd (handler get_discussion_comments (answering ok_response)
                      comments_page_request)) = [c]) ∧
  (∃ c lo,
     params list_discussions list_page_request = inr c ∧
     call_ListOptions c = Some lo ∧ Page lo = 3 ∧ PerPage lo = 50 ∧
     requests (snd (handler list_discussions (answering ok_response)
                      list_page_request)) = [c]).
Proof.
  assert (Hpages : ∀ request,
            (∃ p q, Arguments request !! "page" = Some (VNumber p) ∧
                    Arguments request !! "perPage" = Some (VNumber q)) →
            ∀ f v, f ∈ ["page"; "perPage"] →
                   Arguments request !! f = Some v → json_type v = "number").
  { intros request (p & q & Hp & Hq) f v Hf Hv.
    apply elem_of_cons in Hf as [->|Hf];
      [|apply elem_of_cons in Hf as [->|Hf]; [|by apply elem_of_nil in Hf]].
    - rewrite Hp in Hv. by injection Hv as <-.
    - rewrite Hq in Hv. by injection Hv as <-. }
  split; [|split].
  - destruct (proj1 (pagination_forwarded defaults get_discussion_categories
                       (answering ok_response) categories_page_request eq_refl)
                "owner" "repo")
      as (c & lo & Hc & _ & _ & Hlo & Hp & Hq & Hsent);
      [vm_compute; reflexivity | discriminate | vm_compute; reflexivity | discriminate
      | discriminate | discriminate
      | apply Hpages; exists 2, 10; split; vm_compute; reflexivity |].
    exists c, lo. repeat split; [exact Hc | exact Hlo | | | by eapply Hsent].
    + apply Hp. vm_compute; reflexivity.
    + apply Hq. vm_compute; reflexivity.
  - destruct (proj1 (pagination_forwarded defaults get_discussion_comments
                       (answering ok_response) comments_page_request eq_refl)
                "owner" "repo")
      as (c & lo & Hc & _ & _ & Hlo & Hp & Hq & Hsent);
      [vm_compute; reflexivity | discriminate | vm_compute; reflexivity | discriminate
      | intros _; exists 42; split; [discriminate | vm_compute; reflexivity]
      | discriminate
      | apply Hpages; exists 2, 10; split; vm_compute; reflexivity |].
    exists c, lo. repeat split; [exact Hc | exact Hlo | | | by eapply Hsent].
    + apply Hp. vm_compute; reflexivity.
    + apply Hq. vm_compute; reflexivity.
  - destruct (proj1 (pagination_forwarded defaults list_discussions
                       (answering ok_response) list_page_request eq_refl)
                "owner" "repo")
      as (c & lo & Hc & _ & _ & Hlo & Hp & Hq & Hsent);
      [vm_compute; reflexivity | discriminate | vm_compute; reflexivity | discriminate
      | discriminate
      | intros _ f v Hf Hv;
        apply elem_of_cons in Hf as [->|Hf];
          [|apply elem_of_cons in Hf as [->|Hf];
            [|apply elem_of_cons in Hf as [->|Hf]; [|by apply elem_of_nil in Hf]]];
        vm_compute in Hv; try discriminate Hv; by injection Hv as <-
      | apply Hpages; exists 3, 50; split; vm_compute; reflexivity |].
    exists c, lo. repeat split; [exact Hc | exact Hlo | | | by eapply Hsent].
    + apply Hp. vm_compute; reflexivity.
    + apply Hq. vm_compute; reflexivity.
Defined.

Lemma validated_run_single_request_witness :
  requests (snd (handler get_discussion (answering ok_response) get_request)) =
    [CallGetDiscussion "owner" "repo" 42].
Proof.
  refine (proj1 (validated_run_single_request get_discussion (answering ok_response)
                   get_request (CallGetDiscussion "owner" "repo" 42) _)).
  vm_compute; reflexivity.
Defined.

(** C7, as stated, fails: the parameters of the request are all in
    order, the client cannot be obtained, and no request is sent. *)
Lemma validated_run_without_client :
  params get_discussion get_request = inr (CallGetDiscussion "owner" "repo" 42) ∧
  snd (handler get_discussion no_client get_request) = [EvGetClient] ∧
  requests (snd (handler get_discussion no_client get_request)) = [].
Proof. repeat split; vm_compute; reflexivity. Qed.

Lemma unusable_filters_are_absent_witness :
  handler list_discussions (answering ok_response) unusable_filters_request =
    handler list_discussions (answering ok_response)
      (without "pinned" unusable_filters_request) ∧
  ∀ owner repo opts,
    ListDiscussions_params unusable_filters_request = inr (owner, repo, opts) →
    Pinned opts = None.
Proof.
  refine (proj2 (proj2 (unusable_filters_are_absent defaults (answering ok_response)
                          unusable_filters_request)) "yes" _ _ _);
    [vm_compute; reflexivity | discriminate | discriminate].
Defined.

End AtFixtures.

(** ** The further properties at the fixtures *)

Section SpecHelpersLocal.
Context (defaults : PaginationParams).

Lemma spec_requiredParam_local r1 r2 p :
  Arguments r1 !! p = Arguments r2 !! p →
  ServerSpec.requiredParam r1 p = ServerSpec.requiredParam r2 p.
Proof. intros H. unfold ServerSpec.requiredParam. by rewrite H. Qed.

Lemma spec_RequiredInt_local r1 r2 p :
  Arguments r1 !! p = Arguments r2 !! p →
  ServerSpec.RequiredInt r1 p = ServerSpec.RequiredInt r2 p.
Proof. intros H. unfold ServerSpec.RequiredInt. by rewrite H. Qed.

Lemma spec_OptionalParam_local r1 r2 p :
  Arguments r1 !! p = Arguments r2 !! p →
  ServerSpec.OptionalParam r1 p = ServerSpec.OptionalParam r2 p.
Proof. intros H. unfold ServerSpec.OptionalParam. by rewrite H. Qed.

Lemma spec_OptionalPaginationParams_local r1 r2 :
  Arguments r1 !! "page" = Arguments r2 !! "page" →
  Arguments r1 !! "perPage" = Arguments r2 !! "perPage" →
  ServerSpec.OptionalPaginationParams defaults r1 =
  ServerSpec.OptionalPaginationParams defaults r2.
Proof.
  intros H1 H2. unfold ServerSpec.OptionalPaginationParams, ServerSpec.optionalNumber.
  by rewrite H1, H2.
Qed.

Lemma spec_WithPagination_declares t :
  dom (Properties (InputSchema (ServerSpec.WithPagination t))) =
  dom (Properties (InputSchema t)) ∪ {["page"; "perPage"]}.
Proof.
  unfold ServerSpec.WithPagination, WithNumber, withProperty. cbn.
  rewrite !dom_insert_L. apply set_eq. intros x.
  rewrite !elem_of_union, !elem_of_singleton. tauto.
Qed.

End SpecHelpersLocal.

Section AtFixturesMore.
Import Fixtures.

Lemma client_failure_is_hard_error_witness :
  handler get_discussion no_client get_request =
    ((None, Some (Errorf "failed to get GitHub client: " (ErrExternal "no token"))),
     [EvGetClient]).
Proof.
  refine (client_failure_is_hard_error get_discussion no_client get_request
            (CallGetDiscussion "owner" "repo" 42) _ _ eq_refl).
  vm_compute; reflexivity.
Defined.

Lemma response_body_closed_witness :
  snd (handler create_discussion (answering ok_response_to_create) create_request) =
    [EvGetClient;
     EvRequest (CallCreateDiscussion "owner" "repo"
                  {| DiscussionRequest_Title := Some "Test Discussion";
                     DiscussionRequest_Body := Some "This is a test discussion";
                     DiscussionRequest_CategoryID := Some "1" |});
     EvReadAll; EvClose].
Proof.
  refine (response_body_closed create_discussion (answering ok_response_to_create)
            create_request _ _ _ eq_refl).
  vm_compute; reflexivity.
Defined.

Lemma owner_then_repo_reported_witness :
  handler create_discussion (answering ok_response) no_owner_request =
    ((Some (NewToolResultError "missing required parameter: owner"), None), []).
Proof.
  refine (proj1 (owner_then_repo_reported create_discussion (answering ok_response)
                   no_owner_request (ErrMissingParam "owner")) _).
  vm_compute; reflexivity.
Defined.

Lemma success_result_only_on_success_witness :
  ∃ c client obj resp payload,
    params get_discussion get_request = inr c ∧ answering ok_response = inr client ∧
    roundTrip client c = inr (obj, resp) ∧
    StatusCode resp = success_code get_discussion ∧
    Marshal obj = inr payload ∧
    NewToolResultText "[123,456]" = NewToolResultText payload ∧ (None : option error) = None.
Proof.
  refine (success_result_only_on_success get_discussion (answering ok_response)
            get_request (NewToolResultText "[123,456]") None _ _);
    vm_compute; reflexivity.
Defined.

Lemma hard_error_origin_witness :
  (None : option CallToolResult) = None ∧
  (∃ c, params get_discussion get_request = inr c) ∧
  head (snd (handler get_discussion unreachable get_request)) = Some EvGetClient ∧
  ∃ prefix inner,
    ErrWrap "failed to get discussion: " (ErrExternal "dial tcp: connection refused")
      = ErrWrap prefix inner ∧
    (prefix = "failed to get GitHub client: " ∨ prefix = failure_prefix get_discussion ∨
     prefix = "failed to read response body: " ∨ prefix = marshal_prefix get_discussion).
Proof.
  refine (hard_error_origin get_discussion unreachable get_request None _ _).
  vm_compute; reflexivity.
Defined.

Lemma result_is_single_text_witness :
  ∃ text,
    Content (NewToolResultError "failed to get discussion: Not Found")
      = [ {| Type_ := "text"; Text := text |} ] ∧
    (IsError (NewToolResultError "failed to get discussion: Not Found") = true ∨
     ∃ c client obj resp, answering not_found_response = inr client ∧
       roundTrip client c = inr (obj, resp) ∧ Marshal obj = inr text).
Proof.
  refine (result_is_single_text get_discussion (answering not_found_response)
            get_request _ None _).
  vm_compute; reflexivity.
Defined.

Lemma undeclared_arguments_ignored_witness :
  handler get_discussion (answering ok_response) get_request =
  handler get_discussion (answering ok_response) noisy_get_request.
Proof.
  refine (undeclared_arguments_ignored (hp := helpers)
            spec_requiredParam_local spec_RequiredInt_local spec_OptionalParam_local
            (spec_OptionalPaginationParams_local defaults) spec_WithPagination_declares
            get_discussion NullTranslationHelper (answering ok_response)
            get_request noisy_get_request _).
  intros p Hp. destruct (decide (p = "verbose")) as [->|Hne].
  - apply elem_of_dom in Hp. vm_compute in Hp. destruct Hp as [x Hx]. discriminate Hx.
  - unfold noisy_get_request. cbn [Arguments]. symmetry.
    apply lookup_insert_ne. congruence.
Defined.

Lemma validated_call_addresses_request_witness :
  requiredParam get_request "owner" = inr "owner" ∧
  requiredParam get_request "repo" = inr "repo" ∧
  RequiredInt get_request "discussion_number" = inr 42.
Proof.
  refine (validated_call_addresses_request get_discussion get_request
            (CallGetDiscussion "owner" "repo" 42) _).
  vm_compute; reflexivity.
Defined.

Lemma write_payloads_carry_parameters_witness :
  ∃ title body categoryID,
    requiredParam create_request "title" = inr title ∧
    requiredParam create_request "body" = inr body ∧
    requiredParam create_request "category_id" = inr categoryID ∧
    CallCreateDiscussion "owner" "repo"
      {| DiscussionRequest_Title := Some "Test Discussion";
         DiscussionRequest_Body := Some "This is a test discussion";
         DiscussionRequest_CategoryID := Some "1" |}
    = CallCreateDiscussion "owner" "repo"
        {| DiscussionRequest_Title := Some title;
           DiscussionRequest_Body := Some body;
           DiscussionRequest_CategoryID := Some categoryID |}.
Proof.
  refine (proj2 (write_payloads_carry_parameters create_request
                   (CallCreateDiscussion "owner" "repo"
                      {| DiscussionRequest_Title := Some "Test Discussion";
                         DiscussionRequest_Body := Some "This is a test discussion";
                         DiscussionRequest_CategoryID := Some "1" |})) _).
  vm_compute; reflexivity.
Defined.

Lemma list_options_mirror_extraction_witness :
  Direction {| Direction := "desc"; CategoryID := "1"; Pinned := Some true;
               DiscussionListOptions_ListOptions := {| Page := 1; PerPage := 30 |} |}
    = "desc".
Proof.
  refine (proj1 (list_options_mirror_extraction list_request "owner" "repo" _
                   "desc" "1" "true" _ _ _ _));
    vm_compute; reflexivity.
Defined.

Lemma tool_names_distinct_witness :
  Name (tool list_discussions NullTranslationHelper) =
    Name (tool list_discussions (λ key _, key)) ∧
  (Name (tool list_discussions NullTranslationHelper) =
     Name (tool get_discussion_comments (λ key _, key)) →
   list_discussions = get_discussion_comments).
Proof.
  refine (tool_names_distinct (hp := helpers) _ list_discussions
            get_discussion_comments NullTranslationHelper (λ key _, key)).
  intros t. reflexivity.
Defined.

Lemma tool_description_translated_witness :
  ∃ key default,
    (∀ t, Description (tool get_discussion_categories t) = t key default) ∧
    Description (tool get_discussion_categories NullTranslationHelper) = default ∧
    default ≠ EmptyString.
Proof.
  refine (tool_description_translated (hp := helpers) _ get_discussion_categories).
  intros t. reflexivity.
Defined.

End AtFixturesMore.
